(** * askDenodo: the request/response adapter of the Denodo AI SDK tools

    A shallow embedding of [askDenodo.py].  The five tools build a request,
    hand it to [make_denodo_request], and turn whatever comes back into text.
    The values that travel through that code are the ones Python's JSON
    decoder produces, so the first part of this file fixes those values and
    the handful of Python operations the tools apply to them; the second part
    transcribes the tools; the third part states and proves their properties.

    Conventions.  A Python [str] is a [string] whose characters are code
    points below 256.  A Python [int] is a [Z].  A Python [float] is an IEEE
    binary64 number, written as a [spec_float].  A [dict] is the list of its
    items in insertion order, read by first match.  A call that may raise
    returns a [res]; the backend is a function from requests to replies and
    every operation returns, next to its result, the requests it issued. *)

From Stdlib Require Import String Ascii ZArith Zpower List Bool Lia DecimalString.
From Stdlib Require Import QArith Qround Qabs.
From Stdlib Require Import Floats.SpecFloat.
Import ListNotations.

Open Scope string_scope.
Open Scope Z_scope.

(** ** Results of code that may raise *)

Inductive exn : Type :=
| AttributeError
| TypeError
| ValueError
| OverflowError
| KeyError.

Inductive res (A : Type) : Type :=
| Ok (a : A)
| Raise (e : exn).

Arguments Ok {A} a.
Arguments Raise {A} e.

Definition bind {A B : Type} (c : res A) (k : A -> res B) : res B :=
  match c with
  | Ok a => k a
  | Raise e => Raise e
  end.

Declare Scope res_scope.
Delimit Scope res_scope with res.
Notation "x <- c ;; k" := (bind c (fun x => k))
  (at level 61, c at next level, right associativity) : res_scope.
Open Scope res_scope.

(** ** Values *)

#[warnings="-register-all"]
Inductive pyval : Type :=
| PNone
| PBool (b : bool)
| PInt (n : Z)
| PFloat (f : spec_float)
| PStr (s : string)
| PList (items : list pyval)
| PDict (entries : list (string * pyval)).

Definition dict : Type := list (string * pyval).

(** The line feed of the templates. *)
Definition nl : string := String (ascii_of_nat 10) EmptyString.

Module Py.

(** *** Characters and strings *)

Definition chars (s : string) : list string :=
  map (fun c => String c EmptyString) (list_ascii_of_string s).

Definition strlen (s : string) : Z := Z.of_nat (String.length s).

Definition nonempty (s : string) : bool :=
  match s with
  | EmptyString => false
  | String _ _ => true
  end.

Fixpoint starts_with (p s : string) : bool :=
  match p, s with
  | EmptyString, _ => true
  | String a p', String b s' => Ascii.eqb a b && starts_with p' s'
  | String _ _, EmptyString => false
  end.

(** [needle in s] on two strings. *)
Fixpoint substring_in (needle s : string) : bool :=
  starts_with needle s ||
  match s with
  | EmptyString => false
  | String _ s' => substring_in needle s'
  end.

(** [str.upper] and [str.lower].  Letters a-z and A-Z are mapped; the other
    characters are kept (the case mappings of the remaining code points
    below 256 produce no letter of GET, POST, true or false). *)
Definition upper_char (c : ascii) : ascii :=
  let n := N_of_ascii c in
  if ((97 <=? n) && (n <=? 122))%N then ascii_of_N (n - 32) else c.

Definition lower_char (c : ascii) : ascii :=
  let n := N_of_ascii c in
  if ((65 <=? n) && (n <=? 90))%N then ascii_of_N (n + 32) else c.

Fixpoint upper (s : string) : string :=
  match s with
  | EmptyString => EmptyString
  | String c s' => String (upper_char c) (upper s')
  end.

Fixpoint lower (s : string) : string :=
  match s with
  | EmptyString => EmptyString
  | String c s' => String (lower_char c) (lower s')
  end.

(** *** Integers *)

(** [str(n)] for an [int]. *)
Definition dec (n : Z) : string := NilZero.string_of_int (Z.to_int n).

(** *** Dictionaries *)

Fixpoint lookup (k : string) (d : dict) : option pyval :=
  match d with
  | [] => None
  | (k', v) :: d' => if String.eqb k k' then Some v else lookup k d'
  end.

(** [d[k] = v]: overwrite in place, or append. *)
Fixpoint setitem (d : dict) (k : string) (v : pyval) : dict :=
  match d with
  | [] => [(k, v)]
  | (k', v') :: d' =>
      if String.eqb k k' then (k', v) :: d' else (k', v') :: setitem d' k v
  end.

(** *** Floats: fixed-point formatting *)

(** Nearest integer to [num / den], ties to even ([den] positive). *)
Definition round_half_even (num den : Z) : Z :=
  let q := num / den in
  let r := num mod den in
  match 2 * r ?= den with
  | Lt => q
  | Gt => q + 1
  | Eq => if Z.even q then q else q + 1
  end.

Definition pad4 (r : Z) : string :=
  let s := dec r in
  match String.length s with
  | 1%nat => "000" ++ s
  | 2%nat => "00" ++ s
  | 3%nat => "0" ++ s
  | _ => s
  end.

Definition sign_text (neg : bool) : string := if neg then "-" else "".

(** [format(x, ".4f")] for a float: the exact binary value, correctly
    rounded to four decimals, the sign taken from the sign bit. *)
Definition float_4f (f : spec_float) : string :=
  match f with
  | S754_nan => "nan"
  | S754_infinity s => sign_text s ++ "inf"
  | S754_zero s => sign_text s ++ "0.0000"
  | S754_finite s m e =>
      let q := if 0 <=? e then Zpos m * 2 ^ e * 10000
               else round_half_even (Zpos m * 10000) (2 ^ (- e)) in
      sign_text s ++ dec (q / 10000) ++ "." ++ pad4 (q mod 10000)
  end.

(** [float(n)] for an [int]: nearest binary64, ties to even; an [int] that
    rounds past the largest float raises. *)
Definition float_of_int (n : Z) : res spec_float :=
  match binary_normalize 53 1024 n 0 false with
  | S754_infinity _ => Raise OverflowError
  | f => Ok f
  end.

(** [format(v, ".4f")]: floats directly, ints and bools through [float];
    [str] rejects the format code, the other types reject any format. *)
Definition format_4f (v : pyval) : res string :=
  match v with
  | PFloat f => Ok (float_4f f)
  | PInt n => f <- float_of_int n ;; Ok (float_4f f)
  | PBool b => f <- float_of_int (if b then 1 else 0) ;; Ok (float_4f f)
  | PStr _ => Raise ValueError
  | PNone | PList _ | PDict _ => Raise TypeError
  end.

(** *** Floats: [repr] *)

(** The shortest decimal that reads back as the same binary64, the way
    [repr] prints it.  [x] is the exact value, [lo] and [hi] the midpoints
    to the neighbouring floats; the midpoints themselves read back as [x]
    exactly when the significand of [x] is even. *)

Definition Qlt_bool (a b : Q) : bool := negb (Qle_bool b a).

Definition pow10 (k : Z) : Q := Qpower (10 # 1) k.

Definition pow2 (k : Z) : Q := Qpower (2 # 1) k.

Definition reads_back (lo hi : Q) (closed : bool) (c : Q) : bool :=
  if closed then Qle_bool lo c && Qle_bool c hi
  else Qlt_bool lo c && Qlt_bool c hi.

(** The position of the decimal point: the [k] with 10^(k-1) <= x < 10^k,
    searched downwards from a [k] that is not below it ([float_repr] starts
    two above the estimate it gets from the bit length of [x]). *)
Fixpoint decimal_point (fuel : nat) (x : Q) (k : Z) : Z :=
  match fuel with
  | O => k
  | S fuel' =>
      if Qle_bool (pow10 (k - 1)) x then k
      else decimal_point fuel' x (k - 1)
  end.

(** Digits and decimal point of the shortest decimal, trying 1, 2, ...
    significant digits ([n] counts them, [fuel] bounds the tries).  With [n]
    digits only the decimals just below and just above [x] can read back;
    when both do, the nearer one wins and a tie goes to the even digit. *)
Fixpoint shortest (fuel : nat) (n : Z) (x lo hi : Q) (closed : bool) (k : Z)
  : Z * Z :=
  let scale := pow10 (k - n) in
  let below := Qfloor (x / scale) in
  let above := below + 1 in
  let c_below := (inject_Z below * scale)%Q in
  let c_above := (inject_Z above * scale)%Q in
  let ok_below := reads_back lo hi closed c_below in
  let ok_above := reads_back lo hi closed c_above in
  let prefer_below :=
    match (x - c_below ?= c_above - x)%Q with
    | Lt => true
    | Gt => false
    | Eq => Z.even below
    end in
  match fuel with
  | O => (below, k)
  | S fuel' =>
      if ok_below && (negb ok_above || prefer_below) then (below, k)
      else if ok_above then
        if above =? 10 ^ n then (10 ^ (n - 1), k + 1) else (above, k)
      else shortest fuel' (n + 1) x lo hi closed k
  end.

Fixpoint strip_zeros (fuel : nat) (d : Z) : Z :=
  match fuel with
  | O => d
  | S fuel' =>
      if (d =? 0) || negb (d mod 10 =? 0) then d else strip_zeros fuel' (d / 10)
  end.

Fixpoint zeros (n : nat) : string :=
  match n with
  | O => ""
  | S n' => "0" ++ zeros n'
  end.

Definition exponent_text (x : Z) : string :=
  let a := Z.abs x in
  (if x <? 0 then "-" else "+") ++ (if a <? 10 then "0" else "") ++ dec a.

(** Lay out digits [ds] with the decimal point after [k] of them. *)
Definition layout (ds : string) (k : Z) : string :=
  let n := strlen ds in
  if (k <=? -4) || (16 <? k) then
    match ds with
    | EmptyString => ds
    | String c EmptyString => ds ++ "e" ++ exponent_text (k - 1)
    | String c rest =>
        String c ("." ++ rest) ++ "e" ++ exponent_text (k - 1)
    end
  else if k <=? 0 then "0." ++ zeros (Z.to_nat (- k)) ++ ds
  else if k <? n then
    substring 0 (Z.to_nat k) ds ++ "." ++
    substring (Z.to_nat k) (Z.to_nat (n - k)) ds
  else ds ++ zeros (Z.to_nat (k - n)) ++ ".0".

Definition float_repr (f : spec_float) : string :=
  match f with
  | S754_nan => "nan"
  | S754_infinity s => sign_text s ++ "inf"
  | S754_zero s => sign_text s ++ "0.0"
  | S754_finite s m e =>
      match binary_normalize 53 1024 (Zpos m) e false with
      | S754_finite _ m' e' =>
          let x := (inject_Z (Zpos m') * pow2 e')%Q in
          let half := pow2 (e' - 1) in
          let half_down :=
            if (Zpos m' =? 2 ^ 52) && (-1074 <? e') then pow2 (e' - 2)
            else half in
          let closed := Z.even (Zpos m') in
          let bits := Z.log2 (Zpos m') + 1 + e' in
          let k := decimal_point 8 x (bits * 30103 / 100000 + 2) in
          let '(d, k') := shortest 17 1 x (x - half_down)%Q (x + half)%Q closed k in
          sign_text s ++ layout (dec (strip_zeros 20 d)) k'
      | S754_infinity _ => sign_text s ++ "inf"
      | _ => sign_text s ++ "0.0"
      end
  end.

(** *** Strings: [repr] *)

Definition hex_digit (n : N) : string :=
  substring (N.to_nat n) 1 "0123456789abcdef".

Definition printable (n : N) : bool :=
  ((32 <=? n) && (n <=? 126) || (161 <=? n) && negb (n =? 173))%N.

Definition escape_char (quote : ascii) (c : ascii) : string :=
  let n := N_of_ascii c in
  if Ascii.eqb c quote || (n =? 92)%N then String (ascii_of_N 92) (String c "")
  else if (n =? 9)%N then String (ascii_of_N 92) "t"
  else if (n =? 10)%N then String (ascii_of_N 92) "n"
  else if (n =? 13)%N then String (ascii_of_N 92) "r"
  else if printable n then String c ""
  else String (ascii_of_N 92) ("x" ++ hex_digit (n / 16) ++ hex_digit (n mod 16)).

Definition single_quote : ascii := ascii_of_N 39.
Definition double_quote : ascii := ascii_of_N 34.

Definition has_char (c : ascii) (s : string) : bool :=
  existsb (Ascii.eqb c) (list_ascii_of_string s).

Definition str_repr (s : string) : string :=
  let quote :=
    if has_char single_quote s && negb (has_char double_quote s)
    then double_quote else single_quote in
  String quote
    (String.concat "" (map (escape_char quote) (list_ascii_of_string s))
     ++ String quote "").

(** *** [repr] and [str] of a value *)

Fixpoint repr (v : pyval) : string :=
  match v with
  | PNone => "None"
  | PBool b => if b then "True" else "False"
  | PInt n => dec n
  | PFloat f => float_repr f
  | PStr s => str_repr s
  | PList items => "[" ++ String.concat ", " (map repr items) ++ "]"
  | PDict entries =>
      "{" ++ String.concat ", "
               (map (fun kv => let '(k, x) := kv in str_repr k ++ ": " ++ repr x)
                    entries) ++ "}"
  end.

(** [str(v)], which is also what an f-string field without a format
    specification inserts. *)
Definition str (v : pyval) : string :=
  match v with
  | PStr s => s
  | _ => repr v
  end.

(** *** Truth value, membership, item access, length, iteration, join *)

(** [bool(v)], which [not], [if] and the conditional expression consult. *)
Definition truthy (v : pyval) : bool :=
  match v with
  | PNone => false
  | PBool b => b
  | PInt n => negb (n =? 0)
  | PFloat (S754_zero _) => false
  | PFloat _ => true
  | PStr s => nonempty s
  | PList items => match items with [] => false | _ :: _ => true end
  | PDict entries => match entries with [] => false | _ :: _ => true end
  end.

Definition is_str (s : string) (v : pyval) : bool :=
  match v with
  | PStr s' => String.eqb s s'
  | _ => false
  end.

(** [key in v] for a string [key]: a key of a dict, an element of a list,
    a substring of a string; the other types are not containers. *)
Definition contains (key : string) (v : pyval) : res bool :=
  match v with
  | PDict entries =>
      Ok (match lookup key entries with Some _ => true | None => false end)
  | PList items => Ok (existsb (is_str key) items)
  | PStr s => Ok (substring_in key s)
  | PNone | PBool _ | PInt _ | PFloat _ => Raise TypeError
  end.

(** [v.get(key, default)]: only a dict has the method. *)
Definition get (v : pyval) (key : string) (default : pyval) : res pyval :=
  match v with
  | PDict entries =>
      Ok (match lookup key entries with Some x => x | None => default end)
  | _ => Raise AttributeError
  end.

(** [v[key]] for a string [key]. *)
Definition getitem (v : pyval) (key : string) : res pyval :=
  match v with
  | PDict entries =>
      match lookup key entries with
      | Some x => Ok x
      | None => Raise KeyError
      end
  | _ => Raise TypeError
  end.

(** [len(v)]. *)
Definition len (v : pyval) : res Z :=
  match v with
  | PList items => Ok (Z.of_nat (List.length items))
  | PDict entries => Ok (Z.of_nat (List.length entries))
  | PStr s => Ok (strlen s)
  | PNone | PBool _ | PInt _ | PFloat _ => Raise TypeError
  end.

(** The elements a [for] loop or [enumerate] draws from [v]. *)
Definition iter (v : pyval) : res (list pyval) :=
  match v with
  | PList items => Ok items
  | PDict entries => Ok (map (fun kv => PStr (fst kv)) entries)
  | PStr s => Ok (map PStr (chars s))
  | PNone | PBool _ | PInt _ | PFloat _ => Raise TypeError
  end.

(** The strings of a list whose elements are all [str]. *)
Fixpoint strings_of (items : list pyval) : res (list string) :=
  match items with
  | [] => Ok []
  | PStr s :: rest => l <- strings_of rest ;; Ok (s :: l)
  | _ :: _ => Raise TypeError
  end.

(** [sep.join(v)]. *)
Definition join (sep : string) (v : pyval) : res string :=
  items <- iter v ;;
  l <- strings_of items ;;
  Ok (String.concat sep l).

End Py.

(** ** The transport client *)

Definition API_BASE_URL : string := "http://localhost:8008".

Definition DEFAULT_HEADERS : list (string * string) :=
  [("Content-Type", "application/json"); ("Accept", "application/json")].

Inductive http_verb : Type := HTTP_GET | HTTP_POST.

(** What [client.get] and [client.post] are called with. *)
Record request : Type := mk_request {
  rq_verb : http_verb;
  rq_url : string;
  rq_params : option dict;
  rq_json : option dict;
  rq_headers : list (string * string);
  rq_auth : option (string * string);
  rq_timeout : Z
}.

(** What the three calls inside the [try] block amount to: either one of
    them raises (connection, timeout, status, decoding) and [Fails] carries
    the text of the exception, or the body decodes to a value. *)
Inductive reply : Type :=
| Fails (message : string)
| Body (value : pyval).

Definition backend : Type := request -> reply.

Definition absorb (r : reply) : pyval :=
  match r with
  | Fails message => PDict [("error", PStr message)]
  | Body value => value
  end.

(** Returns the outcome and the requests that went out. *)
Definition make_denodo_request (net : backend) (endpoint method : string)
    (params json_data : option dict) (auth : option (string * string))
  : pyval * list request :=
  let url := API_BASE_URL ++ "/" ++ endpoint in
  if String.eqb (Py.upper method) "GET" then
    let rq := mk_request HTTP_GET url params None DEFAULT_HEADERS auth 120 in
    (absorb (net rq), [rq])
  else if String.eqb (Py.upper method) "POST" then
    let rq := mk_request HTTP_POST url params json_data DEFAULT_HEADERS auth 120 in
    (absorb (net rq), [rq])
  else (PNone, []).

(** [(username, password) if username and password else None] *)
Definition credentials (username password : string) : option (string * string) :=
  if Py.nonempty username && Py.nonempty password
  then Some (username, password) else None.

(** [not result or "error" in result], left to right. *)
Definition failed_or_error (result : pyval) : res bool :=
  if negb (Py.truthy result) then Ok true else Py.contains "error" result.

(** [f"Error: {result.get('error', 'Unknown error occurred')}" if result
    else failed] *)
Definition error_text (failed : string) (result : pyval) : res string :=
  if Py.truthy result then
    e <- Py.get result "error" (PStr "Unknown error occurred") ;;
    Ok ("Error: " ++ Py.str e)
  else Ok failed.

(** ** answer_question *)

(** What [answer_question] does with the outcome of the request. *)
Definition answer_question_render (result : pyval) : res string :=
  stop <- failed_or_error result ;;
  if stop then error_text "Failed to get a response" result
  else
    answer <- Py.get result "answer" (PStr "No answer provided") ;;
    sql_query <- Py.get result "sql_query" (PStr "") ;;
    tables_used <- Py.get result "tables_used" (PList []) ;;
    let sql_text :=
      Py.str (if Py.truthy sql_query then sql_query
              else PStr "No SQL query generated") in
    tables_text <- (if Py.truthy tables_used then Py.join ", " tables_used
                    else Ok "None") ;;
    Ok (nl ++ "Answer: " ++ Py.str answer ++ nl ++
        nl ++ "SQL Query: " ++ sql_text ++ nl ++
        nl ++ "Tables Used: " ++ tables_text ++ nl).

Definition answer_question (net : backend) (question username password : string)
    (plot : bool) (mode use_views custom_instructions : string)
  : res string * list request :=
  let auth := credentials username password in
  let json_data :=
    [("question", PStr question);
     ("plot", PBool plot);
     ("mode", PStr mode);
     ("markdown_response", PBool true);
     ("verbose", PBool true)] in
  let json_data :=
    if Py.nonempty use_views
    then Py.setitem json_data "use_views" (PStr use_views) else json_data in
  let json_data :=
    if Py.nonempty custom_instructions
    then Py.setitem json_data "custom_instructions" (PStr custom_instructions)
    else json_data in
  let '(result, sent) :=
    make_denodo_request net "answerQuestion" "POST" None (Some json_data) auth in
  (answer_question_render result, sent).

(** ** answer_data_question *)

Definition answer_data_question_render (result : pyval) : res string :=
  stop <- failed_or_error result ;;
  if stop then error_text "Failed to get a response" result
  else
    answer <- Py.get result "answer" (PStr "No answer provided") ;;
    sql_query <- Py.get result "sql_query" (PStr "") ;;
    tables_used <- Py.get result "tables_used" (PList []) ;;
    let sql_text :=
      Py.str (if Py.truthy sql_query then sql_query
              else PStr "No SQL query generated") in
    tables_text <- (if Py.truthy tables_used then Py.join ", " tables_used
                    else Ok "None") ;;
    Ok (nl ++ "Answer: " ++ Py.str answer ++ nl ++
        nl ++ "SQL Query: " ++ sql_text ++ nl ++
        nl ++ "Tables Used: " ++ tables_text ++ nl).

Definition answer_data_question (net : backend)
    (question username password : string) (plot : bool) (use_views : string)
  : res string * list request :=
  let auth := credentials username password in
  let json_data :=
    [("question", PStr question);
     ("plot", PBool plot);
     ("markdown_response", PBool true);
     ("verbose", PBool true)] in
  let json_data :=
    if Py.nonempty use_views
    then Py.setitem json_data "use_views" (PStr use_views) else json_data in
  let '(result, sent) :=
    make_denodo_request net "answerDataQuestion" "POST" None (Some json_data) auth in
  (answer_data_question_render result, sent).

(** ** answer_metadata_question *)

Definition answer_metadata_question_render (result : pyval) : res string :=
  stop <- failed_or_error result ;;
  if stop then error_text "Failed to get a response" result
  else
    answer <- Py.get result "answer" (PStr "No answer provided") ;;
    Ok ("Answer: " ++ Py.str answer).

Definition answer_metadata_question (net : backend)
    (question username password : string)
  : res string * list request :=
  let auth := credentials username password in
  let json_data :=
    [("question", PStr question);
     ("markdown_response", PBool true);
     ("verbose", PBool true)] in
  let '(result, sent) :=
    make_denodo_request net "answerMetadataQuestion" "POST" None (Some json_data) auth in
  (answer_metadata_question_render result, sent).

(** ** similarity_search *)

(** The loop over [enumerate(result["results"], 1)]: [i] is the number of
    the next item, [formatted_results] the list built so far. *)
Fixpoint format_results (i : Z) (items : list pyval)
    (formatted_results : list string) : res (list string) :=
  match items with
  | [] => Ok formatted_results
  | item :: rest =>
      table_name <- Py.get item "table_name" (PStr "Unknown") ;;
      score <- Py.get item "score" (PInt 0) ;;
      description <- Py.get item "description" (PStr "No description available") ;;
      score_text <- Py.format_4f score ;;
      format_results (i + 1) rest
        (formatted_results ++
         [Py.dec i ++ ". Table: " ++ Py.str table_name ++ nl ++
          "   Score: " ++ score_text ++ nl ++
          "   Description: " ++ Py.str description])
  end.

Definition similarity_search_render (result : pyval) : res string :=
  stop <- failed_or_error result ;;
  if stop then error_text "Failed to get a response" result
  else
    no_results <- (if negb (Py.truthy result) then Ok true
                   else b <- Py.contains "results" result ;; Ok (negb b)) ;;
    if no_results
    then Ok "No results found or unable to perform similarity search."
    else
      results <- Py.getitem result "results" ;;
      items <- Py.iter results ;;
      formatted_results <- format_results 1 items [] ;;
      Ok ("Search Results:" ++ nl ++ nl ++
          String.concat (nl ++ nl) formatted_results).

Definition similarity_search (net : backend) (query : string) (n_results : Z)
    (username password : string)
  : res string * list request :=
  let auth := credentials username password in
  let params :=
    [("query", PStr query);
     ("n_results", PInt n_results);
     ("scores", PBool true)] in
  let '(result, sent) :=
    make_denodo_request net "similaritySearch" "GET" (Some params) None auth in
  (similarity_search_render result, sent).

(** ** get_metadata *)

(** The loop over [result["db_schema_json"]]. *)
Fixpoint count_tables (entries : list pyval) (tables_count : Z)
    (databases : list pyval) : res (Z * list pyval) :=
  match entries with
  | [] => Ok (tables_count, databases)
  | db :: rest =>
      db_name <- Py.get db "databaseName" (PStr "Unknown") ;;
      db_tables <- Py.get db "databaseTables" (PList []) ;;
      n <- Py.len db_tables ;;
      count_tables rest (tables_count + n) (databases ++ [db_name])
  end.

Definition get_metadata_render (database_names : string) (result : pyval)
  : res string :=
  stop <- failed_or_error result ;;
  if stop then error_text "Failed to get metadata" result
  else
    has_schema <- Py.contains "db_schema_json" result ;;
    counted <- (if has_schema then
                  schema <- Py.getitem result "db_schema_json" ;;
                  entries <- Py.iter schema ;;
                  count_tables entries 0 []
                else Ok (0, [])) ;;
    let '(tables_count, databases) := counted in
    databases_str <- (if Py.truthy (PList databases)
                      then Py.join ", " (PList databases)
                      else Ok database_names) ;;
    Ok ("Successfully retrieved metadata for " ++ Py.dec tables_count ++
        " tables from database(s): " ++ databases_str ++ ".").

Definition get_metadata (net : backend) (database_names : string)
    (insert overwrite : bool) (username password : string)
  : res string * list request :=
  let auth := credentials username password in
  let params :=
    [("vdp_database_names", PStr database_names);
     ("insert", PStr (Py.lower (Py.str (PBool insert))));
     ("overwrite", PStr (Py.lower (Py.str (PBool overwrite))));
     ("examples_per_table", PInt 3);
     ("descriptions", PStr "true");
     ("associations", PStr "true")] in
  let '(result, sent) :=
    make_denodo_request net "getMetadata" "GET" (Some params) None auth in
  (get_metadata_render database_names result, sent).

(** ** The five tools as one type of call *)

Inductive call : Type :=
| AnswerQuestion (question username password : string) (plot : bool)
    (mode use_views custom_instructions : string)
| AnswerDataQuestion (question username password : string) (plot : bool)
    (use_views : string)
| AnswerMetadataQuestion (question username password : string)
| SimilaritySearch (query : string) (n_results : Z) (username password : string)
| GetMetadata (database_names : string) (insert overwrite : bool)
    (username password : string).

Definition run (net : backend) (c : call) : res string * list request :=
  match c with
  | AnswerQuestion q u p plot mode views instr =>
      answer_question net q u p plot mode views instr
  | AnswerDataQuestion q u p plot views => answer_data_question net q u p plot views
  | AnswerMetadataQuestion q u p => answer_metadata_question net q u p
  | SimilaritySearch q n u p => similarity_search net q n u p
  | GetMetadata names ins ovw u p => get_metadata net names ins ovw u p
  end.

(** What a tool does with the outcome of its request. *)
Definition render (c : call) (result : pyval) : res string :=
  match c with
  | AnswerQuestion _ _ _ _ _ _ _ => answer_question_render result
  | AnswerDataQuestion _ _ _ _ _ => answer_data_question_render result
  | AnswerMetadataQuestion _ _ _ => answer_metadata_question_render result
  | SimilaritySearch _ _ _ _ => similarity_search_render result
  | GetMetadata names _ _ _ _ => get_metadata_render names result
  end.

Definition call_username (c : call) : string :=
  match c with
  | AnswerQuestion _ u _ _ _ _ _ | AnswerDataQuestion _ u _ _ _
  | AnswerMetadataQuestion _ u _ | SimilaritySearch _ _ u _
  | GetMetadata _ _ _ u _ => u
  end.

Definition call_password (c : call) : string :=
  match c with
  | AnswerQuestion _ _ p _ _ _ _ | AnswerDataQuestion _ _ p _ _
  | AnswerMetadataQuestion _ _ p | SimilaritySearch _ _ _ p
  | GetMetadata _ _ _ _ p => p
  end.

(** * Properties *)

(** ** Vocabulary of the statements *)

(** The value of a field, or [default] when the object has no such field. *)
Definition field (d : dict) (key : string) (default : pyval) : pyval :=
  match Py.lookup key d with
  | Some v => v
  | None => default
  end.

(** The backend answers [r] to whatever the call sends. *)
Definition replies (net : backend) (c : call) (r : reply) : Prop :=
  forall rq, In rq (snd (run net c)) -> net rq = r.

(** The literal each tool returns for an outcome that is not truthy. *)
Definition failed_text (c : call) : string :=
  match c with
  | GetMetadata _ _ _ _ _ => "Failed to get metadata"
  | _ => "Failed to get a response"
  end.

(** The templates. *)

Definition three_lines (answer sql tables : string) : string :=
  nl ++ "Answer: " ++ answer ++ nl ++
  nl ++ "SQL Query: " ++ sql ++ nl ++
  nl ++ "Tables Used: " ++ tables ++ nl.

Definition sql_line (d : dict) : string :=
  let q := field d "sql_query" (PStr "") in
  if Py.truthy q then Py.str q else "No SQL query generated".

Definition tables_line (tables : list string) : string :=
  match tables with
  | [] => "None"
  | _ :: _ => String.concat ", " tables
  end.

Definition entry_text (i : Z) (o : dict) (score : string) : string :=
  Py.dec i ++ ". Table: " ++ Py.str (field o "table_name" (PStr "Unknown")) ++ nl ++
  "   Score: " ++ score ++ nl ++
  "   Description: " ++
  Py.str (field o "description" (PStr "No description available")).

(** The entries of a result list, numbered from [i]. *)
Fixpoint numbered (i : Z) (objs : list dict) (scores : list string) : list string :=
  match objs, scores with
  | o :: objs', s :: scores' => entry_text i o s :: numbered (i + 1) objs' scores'
  | _, _ => []
  end.

Definition metadata_sentence (tables_count : Z) (databases : string) : string :=
  "Successfully retrieved metadata for " ++ Py.dec tables_count ++
  " tables from database(s): " ++ databases ++ ".".

Definition databases_line (database_names : string) (names : list string) : string :=
  match names with
  | [] => database_names
  | _ :: _ => String.concat ", " names
  end.

Definition total_tables (tables : list (list pyval)) : Z :=
  Z.of_nat (list_sum (map (@List.length pyval) tables)).

(** Shapes of the entries: the score of a result formats to [s]; the name of
    a schema entry is the string [name]; its tables are the list [l]. *)
Definition has_score (o : dict) (s : string) : Prop :=
  Py.format_4f (field o "score" (PInt 0)) = Ok s.

Definition has_name (o : dict) (name : string) : Prop :=
  field o "databaseName" (PStr "Unknown") = PStr name.

Definition has_tables (o : dict) (l : list pyval) : Prop :=
  field o "databaseTables" (PList []) = PList l.

(** The binary64 number that the literal 0.8765 decodes to. *)
Definition score_0_8765 : spec_float := S754_finite false 7894810146780479 (-53).

Definition scenario_3 : dict :=
  [("results",
    PList [PDict [("table_name", PStr "bank.customers");
                  ("score", PFloat score_0_8765);
                  ("description", PStr "Customer master")]])].

Definition scenario_4 : dict :=
  [("db_schema_json",
    PList [PDict [("databaseName", PStr "bank");
                  ("databaseTables", PList [PDict []; PDict []; PDict []])]])].

(** The payload shapes each tool formats without raising. *)
Definition documented (c : call) (d : dict) : Prop :=
  match c with
  | AnswerQuestion _ _ _ _ _ _ _ | AnswerDataQuestion _ _ _ _ _ =>
      exists tables, field d "tables_used" (PList []) = PList (map PStr tables)
  | AnswerMetadataQuestion _ _ _ => True
  | SimilaritySearch _ _ _ _ =>
      Py.lookup "results" d = None \/
      exists objs scores,
        Py.lookup "results" d = Some (PList (map PDict objs)) /\
        Forall2 has_score objs scores
  | GetMetadata _ _ _ _ _ =>
      Py.lookup "db_schema_json" d = None \/
      exists objs names tables,
        Py.lookup "db_schema_json" d = Some (PList (map PDict objs)) /\
        Forall2 has_name objs names /\ Forall2 has_tables objs tables
  end.

(** The replies a tool turns into text: a failure inside the transport
    client, a body that is not truthy, an object with an [error] field, an
    object of the documented shape. *)
Definition absorbed (c : call) (r : reply) : Prop :=
  match r with
  | Fails _ => True
  | Body v =>
      Py.truthy v = false \/
      exists d, v = PDict d /\ (Py.lookup "error" d <> None \/ documented c d)
  end.

(** The documented scores: none (the default 0 applies), a float, a
    boolean, or an integer that a float holds exactly. *)
Definition numeric_score (o : dict) : Prop :=
  match Py.lookup "score" o with
  | None | Some (PFloat _) | Some (PBool _) => True
  | Some (PInt n) => Z.abs n < 2 ^ 53
  | Some _ => False
  end.

(** A result entry the loop of [similarity_search] gets through: an object
    whose score formats. *)
Definition good_hit (item : pyval) : Prop :=
  exists o s, item = PDict o /\ has_score o s.

(** A schema entry [get_metadata] gets through: an object whose name is a
    string and whose tables have a length. *)
Definition good_entry (item : pyval) : Prop :=
  exists o name n,
    item = PDict o /\ has_name o name /\
    Py.len (field o "databaseTables" (PList [])) = Ok n.

(** A truthy value that is a number or a boolean. *)
Definition scalar (v : pyval) : Prop :=
  match v with
  | PBool _ | PInt _ | PFloat _ => Py.truthy v = true
  | _ => False
  end.

(** A text that is neither an error line nor a no-response literal. *)
Definition plain (text : string) : Prop :=
  Py.starts_with "Error: " text = false /\
  text <> "Failed to get a response" /\ text <> "Failed to get metadata".

(** ** Checks of the Python operations *)

Example upper_post : Py.upper "post" = "POST".
Proof. reflexivity. Qed.

Example lower_true : Py.lower (Py.str (PBool true)) = "true".
Proof. reflexivity. Qed.

Example error_in_text : Py.contains "error" (PStr "an error occurred") = Ok true.
Proof. reflexivity. Qed.

Example error_in_list :
  Py.contains "error" (PList [PInt 1; PStr "error"]) = Ok true /\
  Py.contains "error" (PList [PStr "errors"]) = Ok false.
Proof. split; reflexivity. Qed.

Example error_in_number : Py.contains "error" (PInt 5) = Raise TypeError.
Proof. reflexivity. Qed.

Example get_on_list : Py.get (PList [PInt 1]) "answer" PNone = Raise AttributeError.
Proof. reflexivity. Qed.

Example join_text : Py.join ", " (PStr "abc") = Ok "a, b, c".
Proof. reflexivity. Qed.

Example join_number_item : Py.join ", " (PList [PStr "a"; PInt 1]) = Raise TypeError.
Proof. reflexivity. Qed.

Example format_default_score : Py.format_4f (PInt 0) = Ok "0.0000".
Proof. reflexivity. Qed.

Example format_true : Py.format_4f (PBool true) = Ok "1.0000".
Proof. reflexivity. Qed.

Example format_text : Py.format_4f (PStr "high") = Raise ValueError.
Proof. reflexivity. Qed.

Example format_none : Py.format_4f PNone = Raise TypeError.
Proof. reflexivity. Qed.

Example format_huge_int : Py.format_4f (PInt (10 ^ 400)) = Raise OverflowError.
Proof. vm_compute. reflexivity. Qed.

(** 0.03125 lies half way between 0.0312 and 0.0313. *)
Example format_tie : Py.float_4f (S754_finite false 4503599627370496 (-57)) = "0.0312".
Proof. vm_compute. reflexivity. Qed.

Example format_small_negative :
  Py.float_4f (S754_finite true 4503599627370496 (-102)) = "-0.0000".
Proof. vm_compute. reflexivity. Qed.

Example repr_tenth : Py.float_repr (S754_finite false 7205759403792794 (-56)) = "0.1".
Proof. vm_compute. reflexivity. Qed.

Example repr_sum :
  Py.float_repr (S754_finite false 5404319552844596 (-54)) = "0.30000000000000004".
Proof. vm_compute. reflexivity. Qed.

Example repr_1e23 : Py.float_repr (S754_finite false 5960464477539062 24) = "1e+23".
Proof. vm_compute. reflexivity. Qed.

Example repr_smallest : Py.float_repr (S754_finite false 1 (-1074)) = "5e-324".
Proof. vm_compute. reflexivity. Qed.

Example repr_two_to_53 :
  Py.float_repr (S754_finite false 4503599627370496 1) = "9007199254740992.0".
Proof. vm_compute. reflexivity. Qed.

Example repr_tie_to_even :
  Py.float_repr (S754_finite false 7074132444203574 (-3)) = "884266555525446.8".
Proof. vm_compute. reflexivity. Qed.

Example repr_1e_minus_5 :
  Py.float_repr (S754_finite false 5902958103587057 (-69)) = "1e-05".
Proof. vm_compute. reflexivity. Qed.

Example repr_quotes :
  Py.str_repr "it's"
  = String Py.double_quote ("it's" ++ String Py.double_quote EmptyString).
Proof. reflexivity. Qed.

Example str_nested :
  Py.str (PList [PInt 1; PStr "a"; PNone; PBool true; PDict [("k", PList [])]])
  = "[1, 'a', None, True, {'k': []}]".
Proof. vm_compute. reflexivity. Qed.

Example scenario_1 :
  fst (answer_question
         (fun _ => Body (PDict [("answer", PStr "42");
                                ("sql_query", PStr "SELECT COUNT(*) FROM loans");
                                ("tables_used", PList [PStr "bank.loans"])]))
         "How many loans?" "" "" false "default" "" "")
  = Ok (nl ++ "Answer: 42" ++ nl ++
        nl ++ "SQL Query: SELECT COUNT(*) FROM loans" ++ nl ++
        nl ++ "Tables Used: bank.loans" ++ nl).
Proof. reflexivity. Qed.

(** ** Four decimals *)

Lemma round_half_even_nearest (num den : Z) :
  0 < den -> 2 * Z.abs (num - Py.round_half_even num den * den) <= den.
Proof.
  intros Hden. unfold Py.round_half_even.
  pose proof (Z.div_mod num den ltac:(lia)) as Hdm.
  pose proof (Z.mod_pos_bound num den Hden) as Hb.
  destruct (Z.compare_spec (2 * (num mod den)) den) as [Heq | Hlt | Hgt];
    [destruct (Z.even (num / den)) |..]; nia.
Qed.

Lemma pad4_length (r : Z) : 0 <= r < 10000 -> String.length (Py.pad4 r) = 4%nat.
Proof.
  intros Hr.
  assert (Hall : forallb (fun k => Nat.eqb (String.length (Py.pad4 (Z.of_nat k))) 4)
                   (seq 0 (Z.to_nat 10000)) = true) by (vm_compute; reflexivity).
  rewrite forallb_forall in Hall.
  specialize (Hall (Z.to_nat r)).
  rewrite Z2Nat.id in Hall by lia.
  apply Nat.eqb_eq, Hall, in_seq. lia.
Qed.

(** The text of a finite float is sign, whole part, point and four digits,
    and the number it spells is a nearest multiple of 1/10000. *)
Lemma float_4f_four_decimals (s : bool) (m : positive) (e : Z) :
  exists q,
    Py.float_4f (S754_finite s m e)
    = Py.sign_text s ++ Py.dec (q / 10000) ++ "." ++ Py.pad4 (q mod 10000) /\
    String.length (Py.pad4 (q mod 10000)) = 4%nat /\
    2 * Z.abs (Zpos m * 2 ^ Z.max e 0 * 10000 - q * 2 ^ Z.max (- e) 0)
    <= 2 ^ Z.max (- e) 0.
Proof.
  cbn [Py.float_4f]. destruct (Z.leb_spec 0 e) as [He | He].
  - exists (Zpos m * 2 ^ e * 10000). split; [reflexivity | split].
    + apply pad4_length, Z.mod_pos_bound. lia.
    + rewrite (Z.max_l e 0), (Z.max_r (- e) 0) by lia.
      change (2 ^ 0) with 1. rewrite Z.mul_1_r, Z.sub_diag. cbn. lia.
  - exists (Py.round_half_even (Zpos m * 10000) (2 ^ (- e))).
    split; [reflexivity | split].
    + apply pad4_length, Z.mod_pos_bound. lia.
    + rewrite (Z.max_r e 0), (Z.max_l (- e) 0) by lia.
      change (2 ^ 0) with 1. rewrite Z.mul_1_r.
      apply round_half_even_nearest. apply Z.pow_pos_nonneg; lia.
Qed.

(** Integers below 2^53 in magnitude convert to a float without rounding. *)

Lemma digits2_size (m : positive) : digits2_pos m = Pos.size m.
Proof. induction m; cbn; congruence. Qed.

Lemma digits2_bound (m : positive) :
  Zpos m < 2 ^ 53 -> Zpos (digits2_pos m) <= 53.
Proof.
  intros H. rewrite digits2_size.
  assert (Hl : Z.log2 (Zpos m) < 53) by (apply Z.log2_lt_pow2; lia).
  destruct m; cbn [Z.log2 Pos.size] in *; lia.
Qed.

Lemma digits2_iter (p m : positive) :
  digits2_pos (Pos.iter xO m p) = (digits2_pos m + p)%positive.
Proof.
  induction p using Pos.peano_ind.
  - cbn. lia.
  - rewrite Pos.iter_succ. cbn [digits2_pos]. rewrite IHp. lia.
Qed.

Lemma iter_value (p m : positive) : Zpos (Pos.iter xO m p) = Zpos m * 2 ^ Zpos p.
Proof.
  change (Pos.iter xO m p) with (shift_pos p m).
  rewrite shift_pos_correct, Zpower_pos_nat, Zpower_nat_Z, positive_nat_Z. lia.
Qed.

Lemma binary_round_small (s : bool) (m : positive) :
  Zpos m < 2 ^ 53 ->
  exists m' e', binary_round 53 1024 s m 0 = S754_finite s m' e' /\
                e' <= 0 /\ Zpos m' = Zpos m * 2 ^ (- e').
Proof.
  intros Hm. pose proof (digits2_bound m Hm) as Hd.
  unfold binary_round, shl_align, fexp, emin.
  rewrite Z.add_0_r, Z.sub_0_r.
  rewrite Z.max_l by lia.
  destruct (Z.pos (digits2_pos m) - 53) as [| p | p] eqn:Hp; [| lia |].
  - exists m, 0. split; [| split; [lia | cbn; lia]].
    unfold binary_round_aux, shr_fexp, shr, fexp, emin. cbn [Zdigits2 shr_record_of_loc].
    rewrite Z.add_0_r, Z.sub_0_r, Z.max_l by lia. rewrite Hp.
    cbn [shr_m loc_of_shr_record round_nearest_even Zdigits2].
    rewrite Z.add_0_r, Z.sub_0_r, Z.max_l by lia. rewrite Hp.
    cbn [shr_m]. reflexivity.
  - exists (Pos.iter xO m p), (Z.neg p). split; [| split; [lia | rewrite iter_value; reflexivity]].
    assert (Hd' : Zpos (digits2_pos (Pos.iter xO m p)) = 53)
      by (rewrite digits2_iter; lia).
    unfold binary_round_aux, shr_fexp, shr, fexp, emin. cbn [Zdigits2 shr_record_of_loc].
    rewrite Hd'. replace (Z.max (53 + Z.neg p - 53) (3 - 1024 - 53) - Z.neg p) with 0 by lia.
    cbn [shr_m loc_of_shr_record round_nearest_even Zdigits2].
    rewrite Hd'. replace (Z.max (53 + Z.neg p - 53) (3 - 1024 - 53) - Z.neg p) with 0 by lia.
    cbn [shr_m]. destruct (Z.leb_spec (Z.neg p) (1024 - 53)); [reflexivity | lia].
Qed.

Lemma round_half_even_exact (a den : Z) :
  0 < den -> Py.round_half_even (a * den) den = a.
Proof.
  intros Hden. unfold Py.round_half_even.
  rewrite Z.div_mul, Z.mod_mul by lia. cbn [Z.mul].
  destruct (Z.compare_spec 0 den); [lia | reflexivity | lia].
Qed.

Lemma float_4f_exact (s : bool) (m m' : positive) (e' : Z) :
  e' <= 0 -> Zpos m' = Zpos m * 2 ^ (- e') ->
  Py.float_4f (S754_finite s m' e') = Py.sign_text s ++ Py.dec (Zpos m) ++ ".0000".
Proof.
  intros He Hm. cbn [Py.float_4f].
  assert (Hq : (if 0 <=? e' then Zpos m' * 2 ^ e' * 10000
                else Py.round_half_even (Zpos m' * 10000) (2 ^ (- e')))
               = Zpos m * 10000).
  { destruct (Z.leb_spec 0 e') as [H0 | H0].
    - assert (e' = 0) by lia. subst e'. rewrite Hm. cbn. lia.
    - rewrite Hm.
      replace (Zpos m * 2 ^ (- e') * 10000) with (Zpos m * 10000 * 2 ^ (- e')) by ring.
      apply round_half_even_exact. apply Z.pow_pos_nonneg; lia. }
  rewrite Hq, Z.div_mul, Z.mod_mul by lia. reflexivity.
Qed.

Lemma format_4f_small_int (n : Z) :
  Z.abs n < 2 ^ 53 -> Py.format_4f (PInt n) = Ok (Py.dec n ++ ".0000").
Proof.
  intros Hn. cbn [Py.format_4f]. unfold Py.float_of_int.
  destruct n as [| m | m]; cbn [binary_normalize].
  - reflexivity.
  - destruct (binary_round_small false m Hn) as (m' & e' & -> & He & Hm).
    cbn [bind]. rewrite (float_4f_exact false m m' e' He Hm). reflexivity.
  - destruct (binary_round_small true m Hn) as (m' & e' & -> & He & Hm).
    cbn [bind]. rewrite (float_4f_exact true m m' e' He Hm). reflexivity.
Qed.

Lemma format_4f_bool (b : bool) :
  Py.format_4f (PBool b) = Ok (if b then "1.0000" else "0.0000").
Proof.
  destruct b; reflexivity.
Qed.

Lemma numeric_has_score (o : dict) :
  numeric_score o -> exists s, has_score o s.
Proof.
  unfold numeric_score, has_score, field.
  destruct (Py.lookup "score" o) as [[| b | n | f | s | items | entries] |];
    intros H; try contradiction.
  - eexists. apply format_4f_bool.
  - eexists. apply format_4f_small_int. exact H.
  - eexists. reflexivity.
  - eexists. reflexivity.
Qed.

Lemma numeric_scores (objs : list dict) :
  Forall numeric_score objs -> exists scores, Forall2 has_score objs scores.
Proof.
  induction 1 as [| o objs Ho _ [scores IH]].
  - exists []. constructor.
  - destruct (numeric_has_score o Ho) as [s Hs].
    exists (s :: scores). constructor; assumption.
Qed.

(** ** One request per call *)

Lemma run_render (net : backend) (c : call) :
  exists rq, snd (run net c) = [rq] /\ fst (run net c) = render c (absorb (net rq)).
Proof.
  destruct c; eexists; split; reflexivity.
Qed.

Lemma run_replies (net : backend) (c : call) (r : reply) :
  replies net c r -> fst (run net c) = render c (absorb r).
Proof.
  intros Hr. destruct (run_render net c) as (rq & Hsent & Hres).
  rewrite Hres, (Hr rq); [reflexivity | rewrite Hsent; left; reflexivity].
Qed.

(** Rewrite the result of a tool with what it prints for the reply [Hr]
    says the backend gives. *)
Ltac reply_of Hr :=
  let E := fresh "E" in
  pose proof (run_replies _ _ _ Hr) as E;
  cbn [run render absorb] in E; rewrite E; clear E.

(** Split a successful sequence of steps into its steps. *)
Ltac bind_inv H :=
  repeat match type of H with
         | bind ?c _ = Ok _ =>
             let x := fresh "x" in
             let E := fresh "E" in
             destruct c as [x |] eqn:E; cbn [bind] in H; [| discriminate H]
         end.

(** ** The guard *)

Lemma lookup_some_nonempty (key : string) (d : dict) (v : pyval) :
  Py.lookup key d = Some v -> Py.truthy (PDict d) = true.
Proof.
  destruct d; [discriminate | reflexivity].
Qed.

Lemma nonempty_truthy (d : dict) : d <> [] -> Py.truthy (PDict d) = true.
Proof.
  destruct d; [congruence | reflexivity].
Qed.

Lemma guard_falsy (failed : string) (v : pyval) :
  Py.truthy v = false ->
  failed_or_error v = Ok true /\ error_text failed v = Ok failed.
Proof.
  intros H. unfold failed_or_error, error_text. rewrite H. split; reflexivity.
Qed.

Lemma guard_error (failed : string) (d : dict) (e : pyval) :
  Py.lookup "error" d = Some e ->
  failed_or_error (PDict d) = Ok true /\
  error_text failed (PDict d) = Ok ("Error: " ++ Py.str e).
Proof.
  intros H. unfold failed_or_error, error_text.
  rewrite (lookup_some_nonempty _ _ _ H). cbn [negb Py.contains Py.get bind].
  rewrite H. split; reflexivity.
Qed.

Lemma guard_pass (d : dict) :
  d <> [] -> Py.lookup "error" d = None -> failed_or_error (PDict d) = Ok false.
Proof.
  intros Hd H. unfold failed_or_error.
  rewrite (nonempty_truthy _ Hd). cbn [negb Py.contains]. rewrite H. reflexivity.
Qed.

Lemma render_falsy (c : call) (v : pyval) :
  Py.truthy v = false -> render c v = Ok (failed_text c).
Proof.
  intros H.
  destruct c; cbn [render failed_text];
    unfold answer_question_render, answer_data_question_render,
      answer_metadata_question_render, similarity_search_render,
      get_metadata_render;
    destruct (guard_falsy "Failed to get a response" v H) as [-> E1];
    destruct (guard_falsy "Failed to get metadata" v H) as [_ E2];
    cbn [bind]; assumption.
Qed.

Lemma render_error (c : call) (d : dict) (e : pyval) :
  Py.lookup "error" d = Some e -> render c (PDict d) = Ok ("Error: " ++ Py.str e).
Proof.
  intros H.
  destruct c; cbn [render];
    unfold answer_question_render, answer_data_question_render,
      answer_metadata_question_render, similarity_search_render,
      get_metadata_render;
    destruct (guard_error "Failed to get a response" d e H) as [-> E1];
    destruct (guard_error "Failed to get metadata" d e H) as [_ E2];
    cbn [bind]; assumption.
Qed.

(** ** No outcome *)

(** C1 (as amended): when the backend's body decodes to [None], four tools
    return "Failed to get a response" and [get_metadata] returns
    "Failed to get metadata". *)
Theorem no_outcome_text (net : backend) (c : call) :
  replies net c (Body PNone) ->
  fst (run net c) =
  Ok (match c with
      | GetMetadata _ _ _ _ _ => "Failed to get metadata"
      | _ => "Failed to get a response"
      end).
Proof.
  intros Hr. rewrite (run_replies net c _ Hr). cbn [absorb].
  rewrite (render_falsy c PNone eq_refl). destruct c; reflexivity.
Qed.

Lemma no_outcome_text_witness :
  replies (fun _ => Body PNone) (AnswerMetadataQuestion "Which views exist?" "" "")
    (Body PNone) /\
  fst (run (fun _ => Body PNone) (AnswerMetadataQuestion "Which views exist?" "" ""))
  = Ok "Failed to get a response".
Proof.
  split.
  - intros rq _. reflexivity.
  - apply (no_outcome_text (fun _ => Body PNone)
             (AnswerMetadataQuestion "Which views exist?" "" "")).
    intros rq _. reflexivity.
Defined.

(** C1 as stated fails for [get_metadata]: on a [None] outcome it returns
    its own literal. *)
Lemma get_metadata_no_outcome :
  fst (get_metadata (fun _ => Body PNone) "bank" true true "" "")
  = Ok "Failed to get metadata" /\
  fst (get_metadata (fun _ => Body PNone) "bank" true true "" "")
  <> Ok "Failed to get a response".
Proof.
  split; [reflexivity | discriminate].
Qed.

(** ** Methods other than GET and POST *)

(** C3 (as amended): a method that is neither GET nor POST, whatever its
    letter case, yields [None] and sends nothing; the tools render that
    outcome as their no-response literal, not as an error message. *)
Theorem other_method_yields_none (net : backend) (endpoint method : string)
    (params json_data : option dict) (auth : option (string * string)) :
  Py.upper method <> "GET" -> Py.upper method <> "POST" ->
  make_denodo_request net endpoint method params json_data auth = (PNone, []) /\
  forall c, render c PNone = Ok (failed_text c).
Proof.
  intros Hget Hpost. split.
  - unfold make_denodo_request.
    destruct (String.eqb_spec (Py.upper method) "GET"); [contradiction |].
    destruct (String.eqb_spec (Py.upper method) "POST"); [contradiction |].
    reflexivity.
  - intros c. apply render_falsy. reflexivity.
Qed.

Lemma other_method_yields_none_witness :
  Py.upper "put" <> "GET" /\ Py.upper "put" <> "POST" /\
  make_denodo_request (fun _ => Fails "unreachable") "getMetadata" "put"
    None None (Some ("admin", "secret")) = (PNone, []).
Proof.
  split; [discriminate | split; [discriminate |]].
  apply (other_method_yields_none (fun _ => Fails "unreachable") "getMetadata"
           "put" None None (Some ("admin", "secret"))); discriminate.
Defined.

(** C3 as stated fails: with method PUT the outcome carries no error
    message, and [answer_question] would render it without the "Error: "
    prefix. *)
Lemma put_is_not_a_failure :
  make_denodo_request (fun _ => Body (PDict [])) "answerQuestion" "PUT"
    None None None = (PNone, []) /\
  ~ (exists message,
       fst (make_denodo_request (fun _ => Body (PDict [])) "answerQuestion"
              "PUT" None None None) = PDict [("error", PStr message)]) /\
  answer_question_render
    (fst (make_denodo_request (fun _ => Body (PDict [])) "answerQuestion"
            "PUT" None None None)) = Ok "Failed to get a response".
Proof.
  split; [reflexivity | split; [| reflexivity]].
  intros [message H]. discriminate H.
Qed.

(** ** Outcomes that carry an error message *)

(** C5: a failure inside the transport client, and a backend object with a
    top-level [error] field, both come back as "Error: " followed by the
    message, from every tool.  (An [error] value that is not a string is
    shown through [str].) *)
Theorem error_outcome_text (net : backend) (c : call) :
  (forall message,
      replies net c (Fails message) ->
      fst (run net c) = Ok ("Error: " ++ message)) /\
  (forall d message,
      Py.lookup "error" d = Some (PStr message) ->
      replies net c (Body (PDict d)) ->
      fst (run net c) = Ok ("Error: " ++ message)) /\
  (forall d e,
      Py.lookup "error" d = Some e ->
      replies net c (Body (PDict d)) ->
      fst (run net c) = Ok ("Error: " ++ Py.str e)).
Proof.
  split; [| split].
  - intros message Hr. rewrite (run_replies net c _ Hr). cbn [absorb].
    apply (render_error c [("error", PStr message)] (PStr message)). reflexivity.
  - intros d message H Hr. rewrite (run_replies net c _ Hr). cbn [absorb].
    apply (render_error c d (PStr message) H).
  - intros d e H Hr. rewrite (run_replies net c _ Hr). cbn [absorb].
    apply (render_error c d e H).
Qed.

Lemma error_outcome_text_witness :
  Py.lookup "error" [("error", PStr "invalid credentials")]
  = Some (PStr "invalid credentials") /\
  replies (fun _ => Body (PDict [("error", PStr "invalid credentials")]))
    (SimilaritySearch "customer churn" 2 "admin" "wrong")
    (Body (PDict [("error", PStr "invalid credentials")])) /\
  fst (run (fun _ => Body (PDict [("error", PStr "invalid credentials")]))
         (SimilaritySearch "customer churn" 2 "admin" "wrong"))
  = Ok "Error: invalid credentials".
Proof.
  split; [reflexivity | split].
  - intros rq _. reflexivity.
  - apply (proj1 (proj2 (error_outcome_text
             (fun _ => Body (PDict [("error", PStr "invalid credentials")]))
             (SimilaritySearch "customer churn" 2 "admin" "wrong")))
             [("error", PStr "invalid credentials")] "invalid credentials").
    + reflexivity.
    + intros rq _. reflexivity.
Defined.

(** ** What the tools send *)

Lemma nonempty_eqb (s : string) : Py.nonempty s = negb (String.eqb s "").
Proof.
  destruct s; reflexivity.
Qed.

(** C8: the body [answer_question] posts always has [question], [plot],
    [mode], [markdown_response] and [verbose]; it has [use_views] and
    [custom_instructions] exactly when the argument is not the empty string,
    with the argument as value; and it has no other key. *)
Theorem answer_question_body (net : backend)
    (question username password : string) (plot : bool)
    (mode use_views custom_instructions : string) :
  exists rq body,
    snd (answer_question net question username password plot mode use_views
           custom_instructions) = [rq] /\
    rq_verb rq = HTTP_POST /\
    rq_url rq = "http://localhost:8008/answerQuestion" /\
    rq_params rq = None /\
    rq_json rq = Some body /\
    Py.lookup "question" body = Some (PStr question) /\
    Py.lookup "plot" body = Some (PBool plot) /\
    Py.lookup "mode" body = Some (PStr mode) /\
    Py.lookup "markdown_response" body = Some (PBool true) /\
    Py.lookup "verbose" body = Some (PBool true) /\
    Py.lookup "use_views" body =
      (if String.eqb use_views "" then None else Some (PStr use_views)) /\
    Py.lookup "custom_instructions" body =
      (if String.eqb custom_instructions "" then None
       else Some (PStr custom_instructions)) /\
    forall key, Py.lookup key body <> None ->
      In key ["question"; "plot"; "mode"; "markdown_response"; "verbose";
              "use_views"; "custom_instructions"].
Proof.
  unfold answer_question. rewrite !nonempty_eqb.
  destruct (String.eqb use_views ""), (String.eqb custom_instructions "");
    cbn [negb]; eexists; eexists;
    (split; [reflexivity |]);
    repeat (split; [reflexivity |]);
    intros key; cbn [Py.lookup Py.setitem String.eqb Ascii.eqb Bool.eqb];
    repeat (match goal with
            | |- context [String.eqb key ?s] =>
                destruct (String.eqb_spec key s) as [-> | _]
            end; [intros _; cbn [In]; tauto |]);
    intros H; exfalso; apply H; reflexivity.
Qed.

(** C9: every tool sends exactly one request, and that request carries the
    pair (username, password) as credentials if and only if neither of the
    two is the empty string; otherwise it carries none. *)
Theorem credentials_attached (net : backend) (c : call) :
  exists rq,
    snd (run net c) = [rq] /\
    ((call_username c <> "" /\ call_password c <> "" /\
      rq_auth rq = Some (call_username c, call_password c)) \/
     ((call_username c = "" \/ call_password c = "") /\ rq_auth rq = None)).
Proof.
  destruct c; cbn [run call_username call_password];
    (eexists; split; [reflexivity |]); cbn [rq_auth];
    unfold credentials;
    destruct username, password; cbn [Py.nonempty andb];
    solve [ right; split; [tauto | reflexivity]
          | left; repeat split; discriminate ].
Qed.

(** ** similarity_search on an empty result list *)

(** C10: when the payload has a [results] field holding the empty list (and
    no [error] field), [similarity_search] returns the header alone. *)
Theorem empty_results_header (net : backend) (query : string) (n_results : Z)
    (username password : string) (d : dict) :
  Py.lookup "error" d = None ->
  Py.lookup "results" d = Some (PList []) ->
  replies net (SimilaritySearch query n_results username password)
    (Body (PDict d)) ->
  fst (similarity_search net query n_results username password)
  = Ok ("Search Results:" ++ nl ++ nl) /\
  fst (similarity_search net query n_results username password)
  <> Ok "No results found or unable to perform similarity search.".
Proof.
  intros He Hres Hr.
  reply_of Hr. unfold similarity_search_render.
  rewrite (guard_pass d); [| intros ->; discriminate | assumption].
  cbn [bind]. rewrite (lookup_some_nonempty _ _ _ Hres).
  cbn [negb Py.contains Py.getitem bind]. rewrite Hres.
  cbn. split; [reflexivity | discriminate].
Qed.

Lemma empty_results_header_witness :
  Py.lookup "error" [("results", PList [])] = None /\
  Py.lookup "results" [("results", PList [])] = Some (PList []) /\
  replies (fun _ => Body (PDict [("results", PList [])]))
    (SimilaritySearch "customer churn" 5 "" "")
    (Body (PDict [("results", PList [])])) /\
  fst (similarity_search (fun _ => Body (PDict [("results", PList [])]))
         "customer churn" 5 "" "")
  = Ok ("Search Results:" ++ nl ++ nl).
Proof.
  split; [reflexivity | split; [reflexivity | split]].
  - intros rq _. reflexivity.
  - apply (empty_results_header (fun _ => Body (PDict [("results", PList [])]))
             "customer churn" 5 "" "" [("results", PList [])]).
    + reflexivity.
    + reflexivity.
    + intros rq _. reflexivity.
Defined.

(** ** The templates are what the tools print *)

Lemma get_field (d : dict) (key : string) (default : pyval) :
  Py.get (PDict d) key default = Ok (field d key default).
Proof.
  reflexivity.
Qed.

Lemma strings_of_map (l : list string) : Py.strings_of (map PStr l) = Ok l.
Proof.
  induction l as [| s l IH]; cbn [map Py.strings_of]; [reflexivity |].
  rewrite IH. reflexivity.
Qed.

Lemma join_strings (sep : string) (l : list string) :
  Py.join sep (PList (map PStr l)) = Ok (String.concat sep l).
Proof.
  unfold Py.join. cbn [Py.iter bind]. rewrite strings_of_map. reflexivity.
Qed.

Lemma tables_text (tables : list string) :
  (if Py.truthy (PList (map PStr tables))
   then Py.join ", " (PList (map PStr tables)) else Ok "None")
  = Ok (tables_line tables).
Proof.
  destruct tables as [| s l]; [reflexivity |].
  rewrite join_strings. reflexivity.
Qed.

Lemma sql_text (d : dict) :
  Py.str (if Py.truthy (field d "sql_query" (PStr ""))
          then field d "sql_query" (PStr "")
          else PStr "No SQL query generated") = sql_line d.
Proof.
  unfold sql_line. destruct (Py.truthy (field d "sql_query" (PStr ""))); reflexivity.
Qed.

Lemma answer_question_render_lines (d : dict) (tables : list string) :
  d <> [] -> Py.lookup "error" d = None ->
  field d "tables_used" (PList []) = PList (map PStr tables) ->
  answer_question_render (PDict d)
  = Ok (three_lines (Py.str (field d "answer" (PStr "No answer provided")))
          (sql_line d) (tables_line tables)).
Proof.
  intros Hd He Ht. unfold answer_question_render.
  rewrite (guard_pass d Hd He). cbn [bind]. rewrite !get_field. cbn [bind].
  rewrite Ht, tables_text, sql_text. reflexivity.
Qed.

Lemma answer_data_question_render_lines (d : dict) (tables : list string) :
  d <> [] -> Py.lookup "error" d = None ->
  field d "tables_used" (PList []) = PList (map PStr tables) ->
  answer_data_question_render (PDict d)
  = Ok (three_lines (Py.str (field d "answer" (PStr "No answer provided")))
          (sql_line d) (tables_line tables)).
Proof.
  exact (answer_question_render_lines d tables).
Qed.

Lemma answer_metadata_question_render_line (d : dict) :
  d <> [] -> Py.lookup "error" d = None ->
  answer_metadata_question_render (PDict d)
  = Ok ("Answer: " ++ Py.str (field d "answer" (PStr "No answer provided"))).
Proof.
  intros Hd He. unfold answer_metadata_question_render.
  rewrite (guard_pass d Hd He). cbn [bind]. rewrite get_field. reflexivity.
Qed.

Lemma format_results_numbered (objs : list dict) (scores : list string) :
  Forall2 has_score objs scores ->
  forall i acc,
    format_results i (map PDict objs) acc = Ok (acc ++ numbered i objs scores)%list.
Proof.
  induction 1 as [| o s objs scores Hs _ IH]; intros i acc.
  - cbn [map format_results numbered]. rewrite app_nil_r. reflexivity.
  - cbn [map format_results numbered]. rewrite !get_field. cbn [bind].
    unfold has_score in Hs. rewrite Hs. cbn [bind].
    rewrite IH, <- app_assoc. reflexivity.
Qed.

Lemma similarity_search_render_absent (d : dict) :
  d <> [] -> Py.lookup "error" d = None -> Py.lookup "results" d = None ->
  similarity_search_render (PDict d)
  = Ok "No results found or unable to perform similarity search.".
Proof.
  intros Hd He Hr. unfold similarity_search_render.
  rewrite (guard_pass d Hd He). cbn [bind]. rewrite (nonempty_truthy d Hd).
  cbn [negb Py.contains bind]. rewrite Hr. reflexivity.
Qed.

Lemma similarity_search_render_list (d : dict) (objs : list dict)
    (scores : list string) :
  Py.lookup "error" d = None ->
  Py.lookup "results" d = Some (PList (map PDict objs)) ->
  Forall2 has_score objs scores ->
  similarity_search_render (PDict d)
  = Ok ("Search Results:" ++ nl ++ nl ++
        String.concat (nl ++ nl) (numbered 1 objs scores)).
Proof.
  intros He Hr Hs. unfold similarity_search_render.
  rewrite (guard_pass d); [| intros ->; discriminate | assumption].
  cbn [bind]. rewrite (lookup_some_nonempty _ _ _ Hr).
  cbn [negb Py.contains Py.getitem bind]. rewrite Hr.
  cbn [negb bind Py.iter]. rewrite (format_results_numbered objs scores Hs).
  reflexivity.
Qed.

Lemma count_tables_total (objs : list dict) (names : list string)
    (tables : list (list pyval)) :
  Forall2 has_name objs names -> Forall2 has_tables objs tables ->
  forall n acc,
    count_tables (map PDict objs) n acc
    = Ok (n + total_tables tables, (acc ++ map PStr names)%list).
Proof.
  intros Hn. revert tables.
  induction Hn as [| o name objs names Ho _ IH]; intros tables Ht n acc;
    inversion Ht as [| o' l objs' tables' Hl Ht']; subst.
  - cbn [map count_tables]. unfold total_tables. cbn.
    rewrite Z.add_0_r, app_nil_r. reflexivity.
  - cbn [map count_tables]. rewrite !get_field. cbn [bind].
    unfold has_name in Ho. unfold has_tables in Hl. rewrite Ho, Hl.
    cbn [Py.len bind]. rewrite (IH tables' Ht'), <- app_assoc.
    unfold total_tables, list_sum. cbn [map fold_right app].
    rewrite Nat2Z.inj_add, Z.add_assoc. reflexivity.
Qed.

Lemma databases_text (database_names : string) (names : list string) :
  (if Py.truthy (PList (map PStr names))
   then Py.join ", " (PList (map PStr names)) else Ok database_names)
  = Ok (databases_line database_names names).
Proof.
  destruct names as [| s l]; [reflexivity |].
  rewrite join_strings. reflexivity.
Qed.

Lemma get_metadata_render_absent (database_names : string) (d : dict) :
  d <> [] -> Py.lookup "error" d = None -> Py.lookup "db_schema_json" d = None ->
  get_metadata_render database_names (PDict d)
  = Ok (metadata_sentence 0 database_names).
Proof.
  intros Hd He Hs. unfold get_metadata_render.
  rewrite (guard_pass d Hd He). cbn [bind Py.contains]. rewrite Hs.
  reflexivity.
Qed.

Lemma get_metadata_render_schema (database_names : string) (d : dict)
    (objs : list dict) (names : list string) (tables : list (list pyval)) :
  Py.lookup "error" d = None ->
  Py.lookup "db_schema_json" d = Some (PList (map PDict objs)) ->
  Forall2 has_name objs names -> Forall2 has_tables objs tables ->
  get_metadata_render database_names (PDict d)
  = Ok (metadata_sentence (total_tables tables)
          (databases_line database_names names)).
Proof.
  intros He Hs Hn Ht. unfold get_metadata_render.
  rewrite (guard_pass d); [| intros ->; discriminate | assumption].
  cbn [bind Py.contains Py.getitem]. rewrite Hs. cbn [bind Py.iter].
  rewrite (count_tables_total objs names tables Hn Ht). cbn [bind app].
  rewrite Z.add_0_l, databases_text. reflexivity.
Qed.

Lemma numbered_nth (objs : list dict) (scores : list string) :
  forall i k o s,
    nth_error objs k = Some o -> nth_error scores k = Some s ->
    nth_error (numbered i objs scores) k = Some (entry_text (i + Z.of_nat k) o s).
Proof.
  revert scores. induction objs as [| o' objs IH]; intros scores i k o s Ho Hs.
  - destruct k; discriminate.
  - destruct scores as [| s' scores]; [destruct k; discriminate |].
    destruct k as [| k]; cbn [nth_error numbered] in *.
    + injection Ho as <-. injection Hs as <-. rewrite Z.add_0_r. reflexivity.
    + rewrite (IH scores (i + 1) k o s Ho Hs).
      rewrite Nat2Z.inj_succ, <- Z.add_1_l, Z.add_assoc. reflexivity.
Qed.

Lemma format_results_ok_iff (items : list pyval) :
  forall i acc,
    (exists l, format_results i items acc = Ok l) <-> Forall good_hit items.
Proof.
  induction items as [| item rest IH]; intros i acc.
  - split; [constructor | intros _; eexists; reflexivity].
  - split.
    + intros [l H]. cbn [format_results] in H. bind_inv H.
      destruct item; try discriminate E.
      rewrite get_field in E0. injection E0 as <-.
      constructor.
      * exists entries. eexists. split; [reflexivity | exact E2].
      * eapply IH. exists l. exact H.
    + intros HF. inversion HF as [| x xs (o & s & -> & Hs) Hrest]; subst.
      cbn [format_results]. rewrite !get_field. cbn [bind].
      unfold has_score in Hs. rewrite Hs. cbn [bind].
      apply IH. exact Hrest.
Qed.

Lemma similarity_search_render_all_or_nothing (d : dict) (items : list pyval) :
  Py.lookup "error" d = None ->
  Py.lookup "results" d = Some (PList items) ->
  ((exists text, similarity_search_render (PDict d) = Ok text)
   <-> Forall good_hit items).
Proof.
  intros He Hres. unfold similarity_search_render.
  rewrite (guard_pass d); [| intros ->; discriminate | assumption].
  cbn [bind]. rewrite (lookup_some_nonempty _ _ _ Hres).
  cbn [negb Py.contains Py.getitem bind]. rewrite Hres.
  cbn [negb bind Py.iter].
  rewrite <- (format_results_ok_iff items 1 []).
  split.
  - intros [text H]. bind_inv H. exists x. reflexivity.
  - intros [l H]. rewrite H. cbn [bind]. eexists. reflexivity.
Qed.

Lemma strings_of_inv (l : list pyval) :
  forall ss, Py.strings_of l = Ok ss -> l = map PStr ss.
Proof.
  induction l as [| v l IH]; intros ss H.
  - injection H as <-. reflexivity.
  - destruct v; try discriminate H. cbn [Py.strings_of] in H. bind_inv H.
    injection H as <-. cbn [map]. rewrite (IH x eq_refl). reflexivity.
Qed.

Lemma count_tables_inv (entries : list pyval) :
  forall n acc r,
    count_tables entries n acc = Ok r ->
    exists objs,
      entries = map PDict objs /\
      snd r = (acc ++ map (fun o => field o "databaseName" (PStr "Unknown")) objs)%list /\
      Forall (fun o => exists k,
                  Py.len (field o "databaseTables" (PList [])) = Ok k) objs.
Proof.
  induction entries as [| db rest IH]; intros n acc r H.
  - injection H as <-. exists []. cbn. rewrite app_nil_r. repeat split. constructor.
  - cbn [count_tables] in H. bind_inv H.
    destruct db; try discriminate E.
    rewrite get_field in E, E0. injection E as <-. injection E0 as <-.
    destruct (IH _ _ _ H) as (objs & -> & Hs & HF).
    exists (entries :: objs). split; [reflexivity | split].
    + rewrite Hs, <- app_assoc. reflexivity.
    + constructor; [exists x1; exact E1 | exact HF].
Qed.

Lemma count_tables_good (items : list pyval) :
  Forall good_entry items ->
  forall n acc, exists n' names,
    count_tables items n acc = Ok (n', (acc ++ map PStr names)%list).
Proof.
  induction 1 as [| item rest (o & name & k & -> & Hn & Hk) _ IH]; intros n acc.
  - exists n, []. cbn. rewrite app_nil_r. reflexivity.
  - cbn [count_tables]. rewrite !get_field. cbn [bind].
    unfold has_name in Hn. rewrite Hn, Hk. cbn [bind].
    destruct (IH (n + k) (acc ++ [PStr name])%list) as (n' & names & ->).
    exists n', (name :: names). rewrite <- app_assoc. reflexivity.
Qed.

Lemma get_metadata_render_all_or_nothing (database_names : string) (d : dict)
    (items : list pyval) :
  Py.lookup "error" d = None ->
  Py.lookup "db_schema_json" d = Some (PList items) ->
  ((exists text, get_metadata_render database_names (PDict d) = Ok text)
   <-> Forall good_entry items).
Proof.
  intros He Hs. unfold get_metadata_render.
  rewrite (guard_pass d); [| intros ->; discriminate | assumption].
  cbn [bind Py.contains Py.getitem]. rewrite Hs. cbn [bind Py.iter].
  split.
  - intros [text H]. bind_inv H. destruct x as [tables_count databases].
    bind_inv H.
    destruct (count_tables_inv _ _ _ _ E) as (objs & -> & Hd & HF).
    cbn [snd app] in Hd. subst databases.
    destruct objs as [| o objs]; [constructor |].
    cbn [map Py.truthy] in E0. unfold Py.join in E0. cbn [Py.iter bind] in E0.
    bind_inv E0. apply strings_of_inv in E1.
    change (PDict o :: map PDict objs) with (map PDict (o :: objs)).
    change (field o "databaseName" (PStr "Unknown")
            :: map (fun o0 => field o0 "databaseName" (PStr "Unknown")) objs)
      with (map (fun o0 => field o0 "databaseName" (PStr "Unknown")) (o :: objs))
      in E1.
    revert HF E1. generalize (o :: objs) as l. clear.
    intros l HF. revert x0. induction HF as [| o l [k Hk] _ IH]; intros names Hn.
    + constructor.
    + destruct names as [| name names]; [discriminate Hn |].
      cbn [map] in Hn. injection Hn as Hname Hrest.
      constructor; [| exact (IH names Hrest)].
      exists o, name, k. split; [reflexivity | split; [exact Hname | exact Hk]].
  - intros HF. destruct (count_tables_good items HF 0 []) as (n' & names & ->).
    cbn [bind app]. rewrite databases_text. eexists. reflexivity.
Qed.

Lemma raises_or_returns (A : Type) (c : res A) :
  ~ (exists a, c = Ok a) -> exists e, c = Raise e.
Proof.
  intros H. destruct c as [a | e]; [exfalso; apply H; exists a | exists e]; reflexivity.
Qed.

Lemma render_scalar (c : call) (v : pyval) :
  scalar v -> render c v = Raise TypeError.
Proof.
  intros Hs.
  destruct v; cbn [scalar] in Hs; try contradiction;
    destruct c; cbn [render];
    unfold answer_question_render, answer_data_question_render,
      answer_metadata_question_render, similarity_search_render,
      get_metadata_render, failed_or_error;
    rewrite Hs; reflexivity.
Qed.

(** A truthy array or string. *)
Lemma answer_render_not_object (v : pyval) :
  Py.truthy v = true ->
  (exists items, v = PList items) \/ (exists s, v = PStr s) ->
  answer_question_render v = Raise AttributeError /\
  answer_data_question_render v = Raise AttributeError /\
  answer_metadata_question_render v = Raise AttributeError.
Proof.
  intros Ht [[items ->] | [s ->]];
    unfold answer_question_render, answer_data_question_render,
      answer_metadata_question_render, failed_or_error, error_text;
    rewrite Ht; cbn [negb Py.contains bind].
  - destruct (existsb (Py.is_str "error") items); repeat split; reflexivity.
  - destruct (Py.substring_in "error" s); repeat split; reflexivity.
Qed.

Lemma strings_of_bad (items : list pyval) :
  (forall tables, items <> map PStr tables) ->
  Py.strings_of items = Raise TypeError.
Proof.
  induction items as [| v items IH]; intros H.
  - exfalso. apply (H []). reflexivity.
  - destruct v; try reflexivity. cbn [Py.strings_of].
    rewrite IH; [reflexivity |].
    intros tables ->. apply (H (s :: tables)). reflexivity.
Qed.

Lemma answer_render_bad_tables (d : dict) (items : list pyval) :
  Py.lookup "error" d = None ->
  Py.lookup "tables_used" d = Some (PList items) ->
  (forall tables, items <> map PStr tables) ->
  answer_question_render (PDict d) = Raise TypeError /\
  answer_data_question_render (PDict d) = Raise TypeError.
Proof.
  intros He Ht Hbad.
  assert (Hne : items <> []) by (intros ->; apply (Hbad []); reflexivity).
  change (answer_data_question_render (PDict d))
    with (answer_question_render (PDict d)).
  unfold answer_question_render.
  rewrite (guard_pass d); [| intros ->; discriminate | assumption].
  assert (Hf : field d "tables_used" (PList []) = PList items)
    by (unfold field; rewrite Ht; reflexivity).
  cbn [bind]. rewrite !get_field. cbn [bind]. rewrite Hf.
  destruct items as [| v items']; [congruence |]. cbn [Py.truthy].
  unfold Py.join. cbn [Py.iter bind]. rewrite (strings_of_bad _ Hbad).
  split; reflexivity.
Qed.

Lemma score_0_8765_is_nearest :
  (Qabs (inject_Z 7894810146780479 * Py.pow2 (-53) - (8765 # 10000))
   <= Py.pow2 (-54))%Q /\
  Py.float_repr score_0_8765 = "0.8765".
Proof.
  split; [| vm_compute; reflexivity].
  apply Qle_bool_iff. vm_compute. reflexivity.
Qed.

(** ** similarity_search *)

(** C7 (as amended): for a payload that is an object with at least one field
    and no [error] field, [similarity_search] returns the no-results
    sentence when [results] is absent; when [results] is a list of objects
    whose score is absent, a float, a boolean or an integer below 2^53 in
    magnitude it returns the header and the entries numbered from 1, each
    with its table name (default "Unknown"), its score to four decimals
    (default 0; a float is rounded to a nearest multiple of 1/10000 and
    written with four digits after the point; such an integer is written
    with .0000) and its description (default "No description available");
    a larger integer is formatted the same way as long as it converts to a
    float, and one that does not (10^309) has no formatted score: as the
    score of the first entry it makes the tool raise what the conversion
    raises; the payload of Scenario 3 gives the text of Scenario 3. *)
Theorem similarity_search_text :
  (forall (net : backend) (query : string) (n_results : Z)
          (username password : string) (d : dict),
      d <> [] -> Py.lookup "error" d = None ->
      replies net (SimilaritySearch query n_results username password)
        (Body (PDict d)) ->
      (Py.lookup "results" d = None ->
       fst (similarity_search net query n_results username password)
       = Ok "No results found or unable to perform similarity search.") /\
      (forall objs scores,
          Py.lookup "results" d = Some (PList (map PDict objs)) ->
          Forall2 has_score objs scores ->
          fst (similarity_search net query n_results username password)
          = Ok ("Search Results:" ++ nl ++ nl ++
                String.concat (nl ++ nl) (numbered 1 objs scores)) /\
          forall k o s,
            nth_error objs k = Some o -> nth_error scores k = Some s ->
            nth_error (numbered 1 objs scores) k
            = Some (Py.dec (Z.of_nat k + 1) ++ ". Table: " ++
                    Py.str (field o "table_name" (PStr "Unknown")) ++ nl ++
                    "   Score: " ++ s ++ nl ++
                    "   Description: " ++
                    Py.str (field o "description"
                              (PStr "No description available"))))) /\
  (forall o, Py.lookup "score" o = None -> has_score o "0.0000") /\
  (forall o f, Py.lookup "score" o = Some (PFloat f) -> has_score o (Py.float_4f f)) /\
  (forall s m e, exists q,
      Py.float_4f (S754_finite s m e)
      = Py.sign_text s ++ Py.dec (q / 10000) ++ "." ++ Py.pad4 (q mod 10000) /\
      String.length (Py.pad4 (q mod 10000)) = 4%nat /\
      2 * Z.abs (Zpos m * 2 ^ Z.max e 0 * 10000 - q * 2 ^ Z.max (- e) 0)
      <= 2 ^ Z.max (- e) 0) /\
  (forall net : backend,
      replies net (SimilaritySearch "customer churn" 2 "" "")
        (Body (PDict scenario_3)) ->
      fst (similarity_search net "customer churn" 2 "" "")
      = Ok ("Search Results:" ++ nl ++ nl ++
            "1. Table: bank.customers" ++ nl ++
            "   Score: 0.8765" ++ nl ++
            "   Description: Customer master")) /\
  (forall (net : backend) (query : string) (n_results : Z)
          (username password : string) (d : dict) (objs : list dict),
      Py.lookup "error" d = None ->
      replies net (SimilaritySearch query n_results username password)
        (Body (PDict d)) ->
      Py.lookup "results" d = Some (PList (map PDict objs)) ->
      Forall numeric_score objs ->
      exists scores,
        Forall2 has_score objs scores /\
        fst (similarity_search net query n_results username password)
        = Ok ("Search Results:" ++ nl ++ nl ++
              String.concat (nl ++ nl) (numbered 1 objs scores)) /\
        forall k o s,
          nth_error objs k = Some o -> nth_error scores k = Some s ->
          nth_error (numbered 1 objs scores) k
          = Some (Py.dec (Z.of_nat k + 1) ++ ". Table: " ++
                  Py.str (field o "table_name" (PStr "Unknown")) ++ nl ++
                  "   Score: " ++ s ++ nl ++
                  "   Description: " ++
                  Py.str (field o "description"
                            (PStr "No description available")))) /\
  (forall (net : backend) (query : string) (n_results : Z)
          (username password : string) (d o : dict) (rest : list pyval)
          (n : Z) (e : exn),
      Py.lookup "error" d = None ->
      replies net (SimilaritySearch query n_results username password)
        (Body (PDict d)) ->
      Py.lookup "results" d = Some (PList (PDict o :: rest)) ->
      Py.lookup "score" o = Some (PInt n) -> Py.float_of_int n = Raise e ->
      fst (similarity_search net query n_results username password) = Raise e) /\
  (forall o b,
      Py.lookup "score" o = Some (PBool b) ->
      has_score o (if b then "1.0000" else "0.0000")) /\
  (forall o n,
      Py.lookup "score" o = Some (PInt n) -> Z.abs n < 2 ^ 53 ->
      has_score o (Py.dec n ++ ".0000")) /\
  (forall o n f,
      Py.lookup "score" o = Some (PInt n) -> Py.float_of_int n = Ok f ->
      has_score o (Py.float_4f f)) /\
  (forall o n e,
      Py.lookup "score" o = Some (PInt n) -> Py.float_of_int n = Raise e ->
      forall s, ~ has_score o s) /\
  Py.float_of_int (10 ^ 309) = Raise OverflowError.
Proof.
  split; [| split; [| split; [| split; [| split; [| split; [| split;
    [| split; [| split; [| split; [| split]]]]]]]]]].
  - intros net query n_results username password d Hd He Hr.
    reply_of Hr. split.
    + intros Habs. apply similarity_search_render_absent; assumption.
    + intros objs scores Hres Hs. split.
      * apply similarity_search_render_list; assumption.
      * intros k o s Ho Hk. rewrite (numbered_nth objs scores 1 k o s Ho Hk).
        rewrite Z.add_comm. reflexivity.
  - intros o H. unfold has_score, field. rewrite H. reflexivity.
  - intros o f H. unfold has_score, field. rewrite H. reflexivity.
  - exact float_4f_four_decimals.
  - intros net Hr.
    reply_of Hr. vm_compute. reflexivity.
  - intros net query n_results username password d objs He Hr Hres Hn.
    destruct (numeric_scores objs Hn) as [scores Hs]. exists scores.
    split; [exact Hs | split].
    + reply_of Hr. apply similarity_search_render_list; assumption.
    + intros k o s Ho Hk. rewrite (numbered_nth objs scores 1 k o s Ho Hk).
      rewrite Z.add_comm. reflexivity.
  - intros net query n_results username password d o rest n e He Hr Hres Hs Hf.
    reply_of Hr. unfold similarity_search_render.
    rewrite (guard_pass d); [| intros ->; discriminate | assumption].
    cbn [bind]. rewrite (lookup_some_nonempty _ _ _ Hres).
    cbn [negb Py.contains Py.getitem bind]. rewrite Hres.
    cbn [negb bind Py.iter format_results]. rewrite !get_field. cbn [bind].
    assert (Hsc : field o "score" (PInt 0) = PInt n)
      by (unfold field; rewrite Hs; reflexivity).
    rewrite Hsc. cbn [Py.format_4f]. rewrite Hf. reflexivity.
  - intros o b H. unfold has_score, field. rewrite H. apply format_4f_bool.
  - intros o n H Hn. unfold has_score, field. rewrite H.
    apply format_4f_small_int. exact Hn.
  - intros o n f H Hf. unfold has_score, field. rewrite H.
    cbn [Py.format_4f]. rewrite Hf. reflexivity.
  - intros o n e H Hf s. unfold has_score, field. rewrite H.
    cbn [Py.format_4f]. rewrite Hf. discriminate.
  - vm_compute. reflexivity.
Qed.

Lemma similarity_search_text_witness :
  scenario_3 <> [] /\
  Py.lookup "error" scenario_3 = None /\
  replies (fun _ => Body (PDict scenario_3))
    (SimilaritySearch "customer churn" 2 "" "") (Body (PDict scenario_3)) /\
  Py.lookup "results" scenario_3
  = Some (PList (map PDict
                   [[("table_name", PStr "bank.customers");
                     ("score", PFloat score_0_8765);
                     ("description", PStr "Customer master")]])) /\
  has_score [("table_name", PStr "bank.customers");
             ("score", PFloat score_0_8765);
             ("description", PStr "Customer master")] "0.8765" /\
  fst (similarity_search (fun _ => Body (PDict scenario_3))
         "customer churn" 2 "" "")
  = Ok ("Search Results:" ++ nl ++ nl ++
        String.concat (nl ++ nl)
          (numbered 1 [[("table_name", PStr "bank.customers");
                        ("score", PFloat score_0_8765);
                        ("description", PStr "Customer master")]]
             ["0.8765"])).
Proof.
  split; [discriminate | split; [reflexivity | split; [| split; [reflexivity |]]]].
  - intros rq _. reflexivity.
  - split; [vm_compute; reflexivity |].
    apply (proj1 (proj2 (proj1 similarity_search_text
                    (fun _ => Body (PDict scenario_3))
                    "customer churn" 2 "" "" scenario_3
                    ltac:(discriminate) eq_refl
                    ltac:(intros rq _; reflexivity))
             [[("table_name", PStr "bank.customers");
               ("score", PFloat score_0_8765);
               ("description", PStr "Customer master")]]
             ["0.8765"] eq_refl
             ltac:(constructor; [vm_compute; reflexivity | constructor]))).
Defined.

(** C7 as stated fails on the empty object: [results] is absent, yet the
    answer is the no-response literal.  It also fails on a result whose
    score is null: no numbered list comes back. *)
Lemma similarity_search_empty_object :
  Py.lookup "results" [] = None /\
  fst (similarity_search (fun _ => Body (PDict [])) "customer churn" 2 "" "")
  = Ok "Failed to get a response" /\
  fst (similarity_search (fun _ => Body (PDict [])) "customer churn" 2 "" "")
  <> Ok "No results found or unable to perform similarity search." /\
  fst (similarity_search
         (fun _ => Body (PDict [("results",
                                 PList [PDict [("table_name", PStr "bank.customers");
                                               ("score", PNone)]])]))
         "customer churn" 2 "" "")
  = Raise TypeError.
Proof.
  split; [reflexivity | split; [reflexivity | split; [discriminate | reflexivity]]].
Qed.

(** ** get_metadata *)

(** C6 (as amended): for a payload that is an object with at least one field
    and no [error] field, [get_metadata] reports 0 tables and the requested
    names when [db_schema_json] is absent; when it is a list of objects with
    string names (default "Unknown") and table lists (default empty) it
    reports the sum of the lengths of the table lists and the names joined
    by ", " in entry order, or the requested names when the list has no
    entry; the payload of Scenario 4 gives the sentence of Scenario 4. *)
Theorem get_metadata_sentence :
  (forall (net : backend) (database_names : string) (insert overwrite : bool)
          (username password : string) (d : dict),
      d <> [] -> Py.lookup "error" d = None ->
      replies net (GetMetadata database_names insert overwrite username password)
        (Body (PDict d)) ->
      (Py.lookup "db_schema_json" d = None ->
       fst (get_metadata net database_names insert overwrite username password)
       = Ok ("Successfully retrieved metadata for 0 tables from database(s): "
             ++ database_names ++ ".")) /\
      (forall objs names tables,
          Py.lookup "db_schema_json" d = Some (PList (map PDict objs)) ->
          Forall2 has_name objs names -> Forall2 has_tables objs tables ->
          fst (get_metadata net database_names insert overwrite username password)
          = Ok ("Successfully retrieved metadata for " ++
                Py.dec (Z.of_nat (list_sum (map (@List.length pyval) tables))) ++
                " tables from database(s): " ++
                match names with
                | [] => database_names
                | _ :: _ => String.concat ", " names
                end ++ "."))) /\
  (forall o, Py.lookup "databaseName" o = None -> has_name o "Unknown") /\
  (forall o, Py.lookup "databaseTables" o = None -> has_tables o []) /\
  (forall net : backend,
      replies net (GetMetadata "bank" true true "" "") (Body (PDict scenario_4)) ->
      fst (get_metadata net "bank" true true "" "")
      = Ok "Successfully retrieved metadata for 3 tables from database(s): bank.").
Proof.
  split; [| split; [| split]].
  - intros net database_names insert overwrite username password d Hd He Hr.
    reply_of Hr. split.
    + intros Habs. rewrite (get_metadata_render_absent _ d Hd He Habs). reflexivity.
    + intros objs names tables Hs Hn Ht.
      rewrite (get_metadata_render_schema _ d objs names tables He Hs Hn Ht).
      reflexivity.
  - intros o H. unfold has_name, field. rewrite H. reflexivity.
  - intros o H. unfold has_tables, field. rewrite H. reflexivity.
  - intros net Hr.
    reply_of Hr. vm_compute. reflexivity.
Qed.

Lemma get_metadata_sentence_witness :
  scenario_4 <> [] /\
  Py.lookup "error" scenario_4 = None /\
  replies (fun _ => Body (PDict scenario_4)) (GetMetadata "bank" true true "" "")
    (Body (PDict scenario_4)) /\
  Py.lookup "db_schema_json" scenario_4
  = Some (PList (map PDict
                   [[("databaseName", PStr "bank");
                     ("databaseTables", PList [PDict []; PDict []; PDict []])]])) /\
  fst (get_metadata (fun _ => Body (PDict scenario_4)) "bank" true true "" "")
  = Ok ("Successfully retrieved metadata for " ++ Py.dec 3 ++
        " tables from database(s): " ++ "bank" ++ ".").
Proof.
  split; [discriminate | split; [reflexivity | split; [| split; [reflexivity |]]]].
  - intros rq _. reflexivity.
  - apply (proj2 (proj1 get_metadata_sentence
                    (fun _ => Body (PDict scenario_4)) "bank" true true "" ""
                    scenario_4 ltac:(discriminate) eq_refl
                    ltac:(intros rq _; reflexivity))
             [[("databaseName", PStr "bank");
               ("databaseTables", PList [PDict []; PDict []; PDict []])]]
             ["bank"] [[PDict []; PDict []; PDict []]] eq_refl).
    + constructor; [reflexivity | constructor].
    + constructor; [reflexivity | constructor].
Defined.

(** C6 as stated fails when [db_schema_json] is present and empty: the
    sentence does not list the (zero) entry names, it lists the requested
    names.  It also fails on an entry whose [databaseTables] is null: no
    sentence comes back. *)
Lemma get_metadata_empty_schema :
  Py.lookup "db_schema_json" [("db_schema_json", PList [])] = Some (PList []) /\
  fst (get_metadata (fun _ => Body (PDict [("db_schema_json", PList [])]))
         "bank" true true "" "")
  = Ok "Successfully retrieved metadata for 0 tables from database(s): bank." /\
  fst (get_metadata (fun _ => Body (PDict [("db_schema_json", PList [])]))
         "bank" true true "" "")
  <> Ok ("Successfully retrieved metadata for 0 tables from database(s): " ++
         String.concat ", " [] ++ ".") /\
  fst (get_metadata
         (fun _ => Body (PDict [("db_schema_json",
                                 PList [PDict [("databaseName", PStr "bank");
                                               ("databaseTables", PNone)]])]))
         "bank" true true "" "")
  = Raise TypeError.
Proof.
  split; [reflexivity | split; [reflexivity | split; [discriminate | reflexivity]]].
Qed.

(** ** Success templates *)

(** C2 (as amended): for a payload that is an object with at least one field
    and no [error] field, and whose fields have the documented types
    ([tables_used] a list of strings; [results] a list of objects whose
    score is absent, a float, a boolean or an integer below 2^53 in
    magnitude; [db_schema_json] a list of objects with a string name and a
    list of tables), every tool prints its success template with the
    documented default in place of each missing field; in particular an
    object that has none of [answer], [sql_query], [tables_used] gives the
    three lines with "No answer provided", "No SQL query generated" and
    "None". *)
Theorem success_templates (d : dict) :
  d <> [] -> Py.lookup "error" d = None ->
  (forall tables,
      field d "tables_used" (PList []) = PList (map PStr tables) ->
      answer_question_render (PDict d)
      = Ok (three_lines (Py.str (field d "answer" (PStr "No answer provided")))
              (sql_line d) (tables_line tables)) /\
      answer_data_question_render (PDict d)
      = Ok (three_lines (Py.str (field d "answer" (PStr "No answer provided")))
              (sql_line d) (tables_line tables))) /\
  (Py.lookup "answer" d = None -> Py.lookup "sql_query" d = None ->
   Py.lookup "tables_used" d = None ->
   answer_question_render (PDict d)
   = Ok (nl ++ "Answer: No answer provided" ++ nl ++
         nl ++ "SQL Query: No SQL query generated" ++ nl ++
         nl ++ "Tables Used: None" ++ nl)) /\
  answer_metadata_question_render (PDict d)
  = Ok ("Answer: " ++ Py.str (field d "answer" (PStr "No answer provided"))) /\
  (Py.lookup "results" d = None ->
   similarity_search_render (PDict d)
   = Ok "No results found or unable to perform similarity search.") /\
  (forall objs scores,
      Py.lookup "results" d = Some (PList (map PDict objs)) ->
      Forall2 has_score objs scores ->
      similarity_search_render (PDict d)
      = Ok ("Search Results:" ++ nl ++ nl ++
            String.concat (nl ++ nl) (numbered 1 objs scores))) /\
  (forall database_names,
      Py.lookup "db_schema_json" d = None ->
      get_metadata_render database_names (PDict d)
      = Ok (metadata_sentence 0 database_names)) /\
  (forall database_names objs names tables,
      Py.lookup "db_schema_json" d = Some (PList (map PDict objs)) ->
      Forall2 has_name objs names -> Forall2 has_tables objs tables ->
      get_metadata_render database_names (PDict d)
      = Ok (metadata_sentence (total_tables tables)
              (databases_line database_names names))) /\
  (forall objs,
      Py.lookup "results" d = Some (PList (map PDict objs)) ->
      Forall numeric_score objs ->
      exists scores,
        Forall2 has_score objs scores /\
        similarity_search_render (PDict d)
        = Ok ("Search Results:" ++ nl ++ nl ++
              String.concat (nl ++ nl) (numbered 1 objs scores))).
Proof.
  intros Hd He.
  split; [| split; [| split; [| split; [| split; [| split; [| split]]]]]].
  - intros tables Ht. split.
    + apply answer_question_render_lines; assumption.
    + apply answer_data_question_render_lines; assumption.
  - intros Ha Hq Ht.
    rewrite (answer_question_render_lines d [] Hd He);
      unfold sql_line, field; rewrite ?Ha, ?Hq, ?Ht; reflexivity.
  - apply answer_metadata_question_render_line; assumption.
  - intros Hres. apply similarity_search_render_absent; assumption.
  - intros objs scores Hres Hs. apply similarity_search_render_list; assumption.
  - intros database_names Hs. apply get_metadata_render_absent; assumption.
  - intros database_names objs names tables Hs Hn Ht.
    apply (get_metadata_render_schema _ d objs names tables); assumption.
  - intros objs Hres Hn. destruct (numeric_scores objs Hn) as [scores Hs].
    exists scores. split; [exact Hs |].
    apply similarity_search_render_list; assumption.
Qed.

Lemma success_templates_witness :
  [("answer", PStr "42")] <> [] /\
  Py.lookup "error" [("answer", PStr "42")] = None /\
  field [("answer", PStr "42")] "tables_used" (PList []) = PList (map PStr []) /\
  answer_question_render (PDict [("answer", PStr "42")])
  = Ok (nl ++ "Answer: 42" ++ nl ++
        nl ++ "SQL Query: No SQL query generated" ++ nl ++
        nl ++ "Tables Used: None" ++ nl).
Proof.
  split; [discriminate | split; [reflexivity | split; [reflexivity |]]].
  apply (proj1 (proj1 (success_templates [("answer", PStr "42")]
                         ltac:(discriminate) eq_refl) [] eq_refl)).
Defined.

(** C2 as stated fails on the empty object: [answer_question] does not
    print the template with the defaults, it returns the no-response
    literal.  It also fails on an object whose [tables_used] is a number:
    no template comes back. *)
Lemma answer_question_empty_object :
  fst (answer_question (fun _ => Body (PDict [])) "How many loans?" "" ""
         false "default" "" "")
  = Ok "Failed to get a response" /\
  fst (answer_question (fun _ => Body (PDict [])) "How many loans?" "" ""
         false "default" "" "")
  <> Ok (nl ++ "Answer: No answer provided" ++ nl ++
         nl ++ "SQL Query: No SQL query generated" ++ nl ++
         nl ++ "Tables Used: None" ++ nl) /\
  fst (answer_question
         (fun _ => Body (PDict [("answer", PStr "42"); ("tables_used", PInt 7)]))
         "How many loans?" "" "" false "default" "" "")
  = Raise TypeError.
Proof.
  split; [reflexivity | split; [discriminate | reflexivity]].
Qed.

(** ** Which outcomes come back as text *)

(** C4 (as amended): every tool returns a string when the transport client
    fails, when the body is not truthy, when it is an object with an [error]
    field, and when it is an object whose fields have the documented types
    ([tables_used] a list of strings; [results] a list of objects whose
    score formats, as every absent, float, boolean or below-2^53 integer
    score does; [db_schema_json] a list of objects with a string name and a
    list of tables).  A fault reaches the caller when the body is a number
    other than zero or [true] (TypeError, every tool); when the body is a
    non-empty array or string (AttributeError, the three answer tools); and,
    in an object without [error], when [tables_used] is a list with an item
    that is not a string (TypeError, the two answer tools with that line),
    when [results] is a list with an element that is not an object with a
    score that formats ([similarity_search]), when [db_schema_json] is a
    list with an element that is not an object with a string name and sized
    tables ([get_metadata]).  Not every other shape raises: on a non-empty
    array without the elements "error", "results" and "db_schema_json",
    [similarity_search] returns the no-results sentence and [get_metadata]
    its sentence with 0 tables. *)
Theorem absorbed_replies_return_text (net : backend) (c : call) (r : reply) :
  replies net c r ->
  (absorbed c r -> exists text, fst (run net c) = Ok text) /\
  (forall d objs,
      Py.lookup "results" d = Some (PList (map PDict objs)) ->
      Forall numeric_score objs ->
      forall query n_results username password,
        documented (SimilaritySearch query n_results username password) d) /\
  (forall v, r = Body v -> scalar v -> fst (run net c) = Raise TypeError) /\
  (forall v,
      r = Body v -> Py.truthy v = true ->
      (exists items, v = PList items) \/ (exists s, v = PStr s) ->
      match c with
      | SimilaritySearch _ _ _ _ | GetMetadata _ _ _ _ _ => True
      | _ => fst (run net c) = Raise AttributeError
      end) /\
  (forall d items,
      r = Body (PDict d) -> Py.lookup "error" d = None ->
      match c with
      | AnswerQuestion _ _ _ _ _ _ _ | AnswerDataQuestion _ _ _ _ _ =>
          Py.lookup "tables_used" d = Some (PList items) ->
          (forall tables, items <> map PStr tables) ->
          fst (run net c) = Raise TypeError
      | AnswerMetadataQuestion _ _ _ => True
      | SimilaritySearch _ _ _ _ =>
          Py.lookup "results" d = Some (PList items) ->
          ~ Forall good_hit items ->
          exists e, fst (run net c) = Raise e
      | GetMetadata _ _ _ _ _ =>
          Py.lookup "db_schema_json" d = Some (PList items) ->
          ~ Forall good_entry items ->
          exists e, fst (run net c) = Raise e
      end) /\
  (forall items,
      r = Body (PList items) -> items <> [] ->
      existsb (Py.is_str "error") items = false ->
      match c with
      | SimilaritySearch _ _ _ _ =>
          existsb (Py.is_str "results") items = false ->
          fst (run net c)
          = Ok "No results found or unable to perform similarity search."
      | GetMetadata database_names _ _ _ _ =>
          existsb (Py.is_str "db_schema_json") items = false ->
          fst (run net c)
          = Ok ("Successfully retrieved metadata for 0 tables from database(s): "
                ++ database_names ++ ".")
      | _ => True
      end).
Proof.
  intros Hr. rewrite (run_replies net c r Hr).
  split; [| split; [| split; [| split; [| split]]]].
  - intros Ha.
    destruct r as [message | v]; cbn [absorb absorbed] in *.
    + eexists. apply (render_error c [("error", PStr message)] (PStr message)).
      reflexivity.
    + destruct Ha as [Hf | (d & -> & Hd)].
      * eexists. apply render_falsy. assumption.
      * destruct d as [| kv d'] eqn:Ed; [eexists; apply render_falsy; reflexivity |].
        rewrite <- Ed in *.
        assert (Hne : d <> []) by (rewrite Ed; discriminate).
        destruct (Py.lookup "error" d) as [e |] eqn:He.
        -- eexists. apply (render_error c d e He).
        -- destruct Hd as [Hd | Hd]; [congruence |].
           destruct c; cbn [documented render] in *.
           ++ destruct Hd as [tables Ht]. eexists.
              apply (answer_question_render_lines d tables Hne He Ht).
           ++ destruct Hd as [tables Ht]. eexists.
              apply (answer_data_question_render_lines d tables Hne He Ht).
           ++ eexists. apply (answer_metadata_question_render_line d Hne He).
           ++ destruct Hd as [Habs | (objs & scores & Hres & Hs)]; eexists.
              ** apply (similarity_search_render_absent d Hne He Habs).
              ** apply (similarity_search_render_list d objs scores He Hres Hs).
           ++ destruct Hd as [Habs | (objs & names & tables & Hs & Hn & Ht)]; eexists.
              ** apply (get_metadata_render_absent _ d Hne He Habs).
              ** apply (get_metadata_render_schema _ d objs names tables He Hs Hn Ht).
  - intros d objs Hres Hn query n_results username password. cbn [documented].
    right. destruct (numeric_scores objs Hn) as [scores Hs].
    exists objs, scores. split; assumption.
  - intros v -> Hs. cbn [absorb]. apply render_scalar. exact Hs.
  - intros v -> Ht Hv. cbn [absorb].
    destruct (answer_render_not_object v Ht Hv) as (H1 & H2 & H3).
    destruct c; cbn [render]; solve [assumption | exact I].
  - intros d items -> He. cbn [absorb].
    destruct c; cbn [render].
    + intros Ht Hbad. apply (answer_render_bad_tables d items He Ht Hbad).
    + intros Ht Hbad. apply (answer_render_bad_tables d items He Ht Hbad).
    + exact I.
    + intros Hres Hbad. apply raises_or_returns. intros Hok. apply Hbad.
      apply (similarity_search_render_all_or_nothing d items He Hres). exact Hok.
    + intros Hs Hbad. apply raises_or_returns. intros Hok. apply Hbad.
      apply (get_metadata_render_all_or_nothing database_names d items He Hs).
      exact Hok.
  - intros items -> Hne He. cbn [absorb].
    assert (Ht : Py.truthy (PList items) = true)
      by (destruct items; [congruence | reflexivity]).
    destruct c; cbn [render]; try exact I; intros Hno;
      unfold similarity_search_render, get_metadata_render, failed_or_error;
      rewrite Ht; cbn [negb Py.contains bind]; rewrite He; cbn [bind];
      rewrite ?Ht; cbn [negb Py.contains bind]; rewrite Hno; reflexivity.
Qed.

Lemma absorbed_replies_return_text_witness :
  replies (fun _ => Body (PDict scenario_3))
    (SimilaritySearch "customer churn" 2 "" "") (Body (PDict scenario_3)) /\
  absorbed (SimilaritySearch "customer churn" 2 "" "") (Body (PDict scenario_3)) /\
  exists text,
    fst (run (fun _ => Body (PDict scenario_3))
           (SimilaritySearch "customer churn" 2 "" ""))
    = Ok text.
Proof.
  assert (Ha : absorbed (SimilaritySearch "customer churn" 2 "" "")
                 (Body (PDict scenario_3))).
  { right. exists scenario_3. split; [reflexivity |]. right. right.
    exists [[("table_name", PStr "bank.customers");
             ("score", PFloat score_0_8765);
             ("description", PStr "Customer master")]], ["0.8765"].
    split; [reflexivity |].
    constructor; [vm_compute; reflexivity | constructor]. }
  split; [intros rq _; reflexivity | split; [exact Ha |]].
  apply (proj1 (absorbed_replies_return_text
                  (fun _ => Body (PDict scenario_3))
                  (SimilaritySearch "customer churn" 2 "" "")
                  (Body (PDict scenario_3))
                  ltac:(intros rq _; reflexivity))).
  exact Ha.
Defined.

(** C4 as stated fails: a score that is a string, a body that is an array,
    a table list holding a number and a schema entry that is not an object
    each make the tool raise. *)
Lemma faults_propagate :
  fst (similarity_search
         (fun _ => Body (PDict [("results", PList [PDict [("score", PStr "high")]])]))
         "customer churn" 5 "" "")
  = Raise ValueError /\
  ~ (exists text,
       fst (similarity_search
              (fun _ => Body (PDict [("results", PList [PDict [("score", PStr "high")]])]))
              "customer churn" 5 "" "")
       = Ok text) /\
  fst (answer_question (fun _ => Body (PList [PInt 1])) "How many loans?" "" ""
         false "default" "" "")
  = Raise AttributeError /\
  fst (answer_data_question
         (fun _ => Body (PDict [("answer", PStr "42"); ("tables_used", PList [PInt 1])]))
         "How many loans?" "" "" false "")
  = Raise TypeError /\
  fst (get_metadata (fun _ => Body (PDict [("db_schema_json", PList [PInt 1])]))
         "bank" true true "" "")
  = Raise AttributeError.
Proof.
  split; [reflexivity |].
  split; [intros [text H]; discriminate H |].
  repeat split; reflexivity.
Qed.

(** * Further properties of the tools *)

(** ** The requests of the other four tools *)

Ltac only_keys :=
  intros key; cbn [Py.lookup Py.setitem String.eqb Ascii.eqb Bool.eqb];
  repeat (match goal with
          | |- context [String.eqb key ?s] =>
              destruct (String.eqb_spec key s) as [-> | _]
          end; [intros _; cbn [In]; tauto |]);
  intros H; exfalso; apply H; reflexivity.

(** X1: [answer_data_question] posts to answerDataQuestion a body with
    [question], [plot], [markdown_response] and [verbose], with [use_views]
    exactly when the argument is not empty, and with no other key (no
    [mode], no [custom_instructions]). *)
Theorem answer_data_question_body (net : backend)
    (question username password : string) (plot : bool) (use_views : string) :
  exists rq body,
    snd (answer_data_question net question username password plot use_views)
    = [rq] /\
    rq_verb rq = HTTP_POST /\
    rq_url rq = "http://localhost:8008/answerDataQuestion" /\
    rq_params rq = None /\
    rq_json rq = Some body /\
    Py.lookup "question" body = Some (PStr question) /\
    Py.lookup "plot" body = Some (PBool plot) /\
    Py.lookup "markdown_response" body = Some (PBool true) /\
    Py.lookup "verbose" body = Some (PBool true) /\
    Py.lookup "use_views" body =
      (if String.eqb use_views "" then None else Some (PStr use_views)) /\
    forall key, Py.lookup key body <> None ->
      In key ["question"; "plot"; "markdown_response"; "verbose"; "use_views"].
Proof.
  unfold answer_data_question. rewrite !nonempty_eqb.
  destruct (String.eqb use_views ""); cbn [negb]; eexists; eexists;
    (split; [reflexivity |]); repeat (split; [reflexivity |]); only_keys.
Qed.

(** X2: [answer_metadata_question] posts to answerMetadataQuestion a body
    with exactly [question], [markdown_response] and [verbose]. *)
Theorem answer_metadata_question_body (net : backend)
    (question username password : string) :
  exists rq body,
    snd (answer_metadata_question net question username password) = [rq] /\
    rq_verb rq = HTTP_POST /\
    rq_url rq = "http://localhost:8008/answerMetadataQuestion" /\
    rq_params rq = None /\
    rq_json rq = Some body /\
    Py.lookup "question" body = Some (PStr question) /\
    Py.lookup "markdown_response" body = Some (PBool true) /\
    Py.lookup "verbose" body = Some (PBool true) /\
    forall key, Py.lookup key body <> None ->
      In key ["question"; "markdown_response"; "verbose"].
Proof.
  unfold answer_metadata_question. eexists; eexists.
  (split; [reflexivity |]); repeat (split; [reflexivity |]); only_keys.
Qed.

(** X3: [similarity_search] sends a GET to similaritySearch with the query
    parameters [query], [n_results] (the argument, whatever its sign) and
    [scores] = True, no other parameter, and no JSON body. *)
Theorem similarity_search_params (net : backend) (query : string)
    (n_results : Z) (username password : string) :
  exists rq params,
    snd (similarity_search net query n_results username password) = [rq] /\
    rq_verb rq = HTTP_GET /\
    rq_url rq = "http://localhost:8008/similaritySearch" /\
    rq_json rq = None /\
    rq_params rq = Some params /\
    Py.lookup "query" params = Some (PStr query) /\
    Py.lookup "n_results" params = Some (PInt n_results) /\
    Py.lookup "scores" params = Some (PBool true) /\
    forall key, Py.lookup key params <> None ->
      In key ["query"; "n_results"; "scores"].
Proof.
  unfold similarity_search. eexists; eexists.
  (split; [reflexivity |]); repeat (split; [reflexivity |]); only_keys.
Qed.

(** X4: [get_metadata] sends a GET to getMetadata whose parameters are the
    requested names under [vdp_database_names], [insert] and [overwrite] as
    the lower-case words true or false, [examples_per_table] = 3,
    [descriptions] and [associations] = "true", and nothing else; it sends
    no JSON body. *)
Theorem get_metadata_params (net : backend) (database_names : string)
    (insert overwrite : bool) (username password : string) :
  exists rq params,
    snd (get_metadata net database_names insert overwrite username password)
    = [rq] /\
    rq_verb rq = HTTP_GET /\
    rq_url rq = "http://localhost:8008/getMetadata" /\
    rq_json rq = None /\
    rq_params rq = Some params /\
    Py.lookup "vdp_database_names" params = Some (PStr database_names) /\
    Py.lookup "insert" params
    = Some (PStr (if insert then "true" else "false")) /\
    Py.lookup "overwrite" params
    = Some (PStr (if overwrite then "true" else "false")) /\
    Py.lookup "examples_per_table" params = Some (PInt 3) /\
    Py.lookup "descriptions" params = Some (PStr "true") /\
    Py.lookup "associations" params = Some (PStr "true") /\
    forall key, Py.lookup key params <> None ->
      In key ["vdp_database_names"; "insert"; "overwrite"; "examples_per_table";
              "descriptions"; "associations"].
Proof.
  unfold get_metadata. destruct insert, overwrite; eexists; eexists;
    (split; [reflexivity |]); repeat (split; [reflexivity |]); only_keys.
Qed.

(** ** One request, whatever the backend does *)

(** X5: every tool sends exactly one request and the request does not
    depend on how the backend answers (nothing is sent again after a
    failure); it goes to an address under the base URL with the default
    headers and the 120 timeout, and it carries either query parameters
    (GET) or a JSON body (POST), never both. *)
Theorem one_request_per_call (net net' : backend) (c : call) :
  snd (run net c) = snd (run net' c) /\
  exists rq,
    snd (run net c) = [rq] /\
    Py.starts_with (API_BASE_URL ++ "/") (rq_url rq) = true /\
    rq_headers rq = DEFAULT_HEADERS /\
    rq_timeout rq = 120 /\
    match rq_verb rq with
    | HTTP_GET => rq_params rq <> None /\ rq_json rq = None
    | HTTP_POST => rq_params rq = None /\ rq_json rq <> None
    end.
Proof.
  split; [destruct c; reflexivity |].
  destruct c; eexists; (split; [reflexivity |]);
    repeat (split; [reflexivity |]); cbn [rq_verb rq_params rq_json];
    try split; solve [reflexivity | discriminate].
Qed.

(** X6: whatever method, parameters and body [make_denodo_request] is
    given, it sends at most one request; a request it sends goes to the base
    URL joined to the endpoint, with the default headers, the 120 timeout
    and the credentials and parameters it was given; a GET never carries
    the JSON body; and the outcome is [None] when nothing was sent, else
    what the backend replied (a failure wrapped as an [error] entry). *)
Theorem transport_invariants (net : backend) (endpoint method : string)
    (params json_data : option dict) (auth : option (string * string)) :
  let out := make_denodo_request net endpoint method params json_data auth in
  (snd out = [] /\ fst out = PNone) \/
  exists rq,
    snd out = [rq] /\ fst out = absorb (net rq) /\
    rq_url rq = API_BASE_URL ++ "/" ++ endpoint /\
    rq_headers rq = DEFAULT_HEADERS /\ rq_timeout rq = 120 /\
    rq_auth rq = auth /\ rq_params rq = params /\
    match rq_verb rq with
    | HTTP_GET => Py.upper method = "GET" /\ rq_json rq = None
    | HTTP_POST => Py.upper method = "POST" /\ rq_json rq = json_data
    end.
Proof.
  unfold make_denodo_request.
  destruct (String.eqb_spec (Py.upper method) "GET") as [Hg | _];
    [| destruct (String.eqb_spec (Py.upper method) "POST") as [Hp | _]].
  - right. eexists. repeat (split; [reflexivity |]). split; [exact Hg | reflexivity].
  - right. eexists. repeat (split; [reflexivity |]). split; [exact Hp | reflexivity].
  - left. split; reflexivity.
Qed.

(** ** What a returned text tells about the outcome *)

Lemma guard_stop (failed : string) (v : pyval) (text : string) :
  failed_or_error v = Ok true -> error_text failed v = Ok text ->
  (Py.truthy v = false /\ text = failed) \/
  (exists d e, v = PDict d /\ Py.lookup "error" d = Some e /\
               text = "Error: " ++ Py.str e).
Proof.
  unfold failed_or_error, error_text.
  destruct (Py.truthy v) eqn:Ht; cbn [negb]; intros Hc Hg.
  - right. destruct v; cbn [Py.get bind] in Hg; try discriminate Hg.
    cbn [Py.contains] in Hc.
    destruct (Py.lookup "error" entries) as [e |] eqn:He; [| discriminate Hc].
    injection Hg as <-. exists entries, e.
    split; [reflexivity | split; [exact He | reflexivity]].
  - left. injection Hg as <-. split; reflexivity.
Qed.

Lemma render_cases (c : call) (v : pyval) (text : string) :
  render c v = Ok text ->
  (Py.truthy v = false /\ text = failed_text c) \/
  (exists d e, v = PDict d /\ Py.lookup "error" d = Some e /\
               text = "Error: " ++ Py.str e) \/
  (failed_or_error v = Ok false /\ plain text).
Proof.
  intros H.
  destruct (failed_or_error v) as [[|] |] eqn:Hfe.
  - assert (Hg : error_text (failed_text c) v = Ok text).
    { destruct c; cbn [render failed_text] in *;
        unfold answer_question_render, answer_data_question_render,
          answer_metadata_question_render, similarity_search_render,
          get_metadata_render in H;
        rewrite Hfe in H; exact H. }
    destruct (guard_stop _ _ _ Hfe Hg) as [Hf | He]; [left | right; left]; assumption.
  - right; right. split; [reflexivity |].
    destruct c; cbn [render] in H;
      unfold answer_question_render, answer_data_question_render,
        answer_metadata_question_render, similarity_search_render,
        get_metadata_render in H;
      rewrite Hfe in H; cbn [bind] in H.
    + bind_inv H. injection H as <-. repeat split; discriminate.
    + bind_inv H. injection H as <-. repeat split; discriminate.
    + bind_inv H. injection H as <-. repeat split; discriminate.
    + bind_inv H. destruct x.
      * injection H as <-. repeat split; discriminate.
      * bind_inv H. injection H as <-. repeat split; discriminate.
    + bind_inv H. destruct x0 as [tables_count databases].
      bind_inv H. injection H as <-. repeat split; discriminate.
  - exfalso.
    destruct c; cbn [render] in H;
      unfold answer_question_render, answer_data_question_render,
        answer_metadata_question_render, similarity_search_render,
        get_metadata_render in H;
      rewrite Hfe in H; discriminate H.
Qed.

(** X7: when a tool returns a text, the text starts with "Error: " exactly
    when the transport client failed or the body was an object with an
    [error] field.  No success text and no no-response literal starts that
    way, and the fallback "Unknown error occurred" of the error line is
    never needed. *)
Theorem error_prefix_iff (net : backend) (c : call) (r : reply) (text : string) :
  replies net c r -> fst (run net c) = Ok text ->
  (Py.starts_with "Error: " text = true <->
   (exists message, r = Fails message) \/
   (exists d e, r = Body (PDict d) /\ Py.lookup "error" d = Some e)).
Proof.
  intros Hr H. rewrite (run_replies net c r Hr) in H.
  destruct (render_cases c _ _ H) as [[Hf ->] | [(d & e & Hv & He & ->) | [Hfe Hp]]].
  - split.
    + destruct c; discriminate.
    + intros [[message ->] | (d & e & -> & He)]; [discriminate Hf |].
      cbn [absorb] in Hf. rewrite (lookup_some_nonempty _ _ _ He) in Hf.
      discriminate Hf.
  - split; [| reflexivity]. intros _.
    destruct r as [message | v]; cbn [absorb] in Hv.
    + left. exists message. reflexivity.
    + right. exists d, e. subst v. split; [reflexivity | assumption].
  - destruct Hp as (Hp & _ & _). rewrite Hp. split; [discriminate |].
    intros Herr.
    assert (He : exists d e, absorb r = PDict d /\ Py.lookup "error" d = Some e).
    { destruct Herr as [[message ->] | (d & e & -> & He)].
      - exists [("error", PStr message)], (PStr message). split; reflexivity.
      - exists d, e. split; [reflexivity | assumption]. }
    destruct He as (d & e & Hv & He). rewrite Hv in Hfe.
    destruct (guard_error "" d e He) as [Hg _]. congruence.
Qed.

Lemma error_prefix_iff_witness :
  replies (fun _ => Fails "timed out") (AnswerQuestion "How many loans?" "" ""
                                          false "default" "" "")
    (Fails "timed out") /\
  fst (run (fun _ => Fails "timed out")
         (AnswerQuestion "How many loans?" "" "" false "default" "" ""))
  = Ok "Error: timed out" /\
  (Py.starts_with "Error: " "Error: timed out" = true <->
   (exists message, Fails "timed out" = Fails message) \/
   (exists d e, Fails "timed out" = Body (PDict d) /\ Py.lookup "error" d = Some e)).
Proof.
  split; [intros rq _; reflexivity | split; [reflexivity |]].
  apply (error_prefix_iff (fun _ => Fails "timed out")
           (AnswerQuestion "How many loans?" "" "" false "default" "" "")
           (Fails "timed out") "Error: timed out").
  - intros rq _. reflexivity.
  - reflexivity.
Defined.

(** X8: a tool returns its no-response literal exactly when the body
    decodes to a value that is not truthy; those values are null, false, 0,
    a zero float, the empty string, the empty array and the empty object. *)
Theorem no_response_iff (net : backend) (c : call) (r : reply) :
  replies net c r ->
  (fst (run net c)
   = Ok (match c with
         | GetMetadata _ _ _ _ _ => "Failed to get metadata"
         | _ => "Failed to get a response"
         end) <->
   exists v, r = Body v /\
     (v = PNone \/ v = PBool false \/ v = PInt 0 \/
      (exists s, v = PFloat (S754_zero s)) \/
      v = PStr "" \/ v = PList [] \/ v = PDict [])).
Proof.
  intros Hr. rewrite (run_replies net c r Hr).
  change (match c with
          | GetMetadata _ _ _ _ _ => "Failed to get metadata"
          | _ => "Failed to get a response"
          end) with (failed_text c).
  split.
  - intros H.
    destruct (render_cases c _ _ H) as [[Hf _] | [(d & e & _ & _ & Ht) | [_ Hp]]].
    + destruct r as [message | v]; [discriminate Hf |]. cbn [absorb] in Hf.
      exists v. split; [reflexivity |].
      destruct v as [| b | n | f | s | items | entries]; cbn [Py.truthy] in Hf.
      * tauto.
      * subst b. tauto.
      * apply negb_false_iff, Z.eqb_eq in Hf. subst n. tauto.
      * destruct f; try discriminate Hf. right; right; right; left.
        eexists. reflexivity.
      * destruct s; [tauto | discriminate Hf].
      * destruct items; [tauto | discriminate Hf].
      * destruct entries; [tauto | discriminate Hf].
    + destruct c; discriminate Ht.
    + destruct Hp as (_ & H1 & H2). destruct c; cbn [failed_text] in *; congruence.
  - intros (v & -> & Hv). cbn [absorb]. apply render_falsy.
    destruct Hv as [-> | [-> | [-> | [[s ->] | [-> | [-> | ->]]]]]]; reflexivity.
Qed.

Lemma no_response_iff_witness :
  replies (fun _ => Body (PList [])) (SimilaritySearch "customer churn" 5 "" "")
    (Body (PList [])) /\
  fst (run (fun _ => Body (PList [])) (SimilaritySearch "customer churn" 5 "" ""))
  = Ok "Failed to get a response".
Proof.
  split; [intros rq _; reflexivity |].
  apply (proj2 (no_response_iff (fun _ => Body (PList []))
                  (SimilaritySearch "customer churn" 5 "" "") (Body (PList []))
                  ltac:(intros rq _; reflexivity))).
  exists (PList []). split; [reflexivity | tauto].
Defined.

(** ** Bodies that are not objects *)

(** X9: when the body is a number other than zero, or [true], every tool
    raises TypeError: the test ["error" in result] needs a container. *)
Theorem scalar_body_raises (net : backend) (c : call) (v : pyval) :
  replies net c (Body v) -> scalar v -> fst (run net c) = Raise TypeError.
Proof.
  intros Hr Hs. rewrite (run_replies net c _ Hr). cbn [absorb].
  destruct v; cbn [scalar] in Hs; try contradiction;
    destruct c; cbn [render];
    unfold answer_question_render, answer_data_question_render,
      answer_metadata_question_render, similarity_search_render,
      get_metadata_render, failed_or_error;
    rewrite Hs; reflexivity.
Qed.

Lemma scalar_body_raises_witness :
  replies (fun _ => Body (PInt 42)) (AnswerMetadataQuestion "Which views exist?" "" "")
    (Body (PInt 42)) /\
  scalar (PInt 42) /\
  fst (run (fun _ => Body (PInt 42))
         (AnswerMetadataQuestion "Which views exist?" "" ""))
  = Raise TypeError.
Proof.
  split; [intros rq _; reflexivity | split; [reflexivity |]].
  apply (scalar_body_raises (fun _ => Body (PInt 42))
           (AnswerMetadataQuestion "Which views exist?" "" "") (PInt 42)).
  - intros rq _. reflexivity.
  - reflexivity.
Defined.

(** X10: when the body is a non-empty array, a tool raises AttributeError
    if the string "error" is one of its elements; otherwise the three answer
    tools raise AttributeError, [similarity_search] returns the no-results
    sentence unless "results" is an element, and [get_metadata] reports
    success with 0 tables and the requested names unless "db_schema_json"
    is an element (in both excepted cases the tool raises TypeError). *)
Theorem array_body (net : backend) (c : call) (items : list pyval) :
  replies net c (Body (PList items)) -> items <> [] ->
  (existsb (Py.is_str "error") items = true ->
   fst (run net c) = Raise AttributeError) /\
  (existsb (Py.is_str "error") items = false ->
   match c with
   | SimilaritySearch _ _ _ _ =>
       fst (run net c) =
       if existsb (Py.is_str "results") items then Raise TypeError
       else Ok "No results found or unable to perform similarity search."
   | GetMetadata database_names _ _ _ _ =>
       fst (run net c) =
       if existsb (Py.is_str "db_schema_json") items then Raise TypeError
       else Ok ("Successfully retrieved metadata for 0 tables from database(s): "
                ++ database_names ++ ".")
   | _ => fst (run net c) = Raise AttributeError
   end).
Proof.
  intros Hr Hne. rewrite (run_replies net c _ Hr). cbn [absorb].
  assert (Ht : Py.truthy (PList items) = true)
    by (destruct items; [congruence | reflexivity]).
  split; intros He;
    destruct c; cbn [render];
    unfold answer_question_render, answer_data_question_render,
      answer_metadata_question_render, similarity_search_render,
      get_metadata_render, failed_or_error, error_text;
    rewrite Ht; cbn [negb Py.contains bind]; rewrite He; cbn [bind Py.get];
    try reflexivity.
  - destruct (existsb (Py.is_str "results") items); reflexivity.
  - destruct (existsb (Py.is_str "db_schema_json") items); reflexivity.
Qed.

Lemma array_body_witness :
  replies (fun _ => Body (PList [PStr "bank"; PStr "sales"]))
    (GetMetadata "bank" true true "" "") (Body (PList [PStr "bank"; PStr "sales"])) /\
  [PStr "bank"; PStr "sales"] <> [] /\
  existsb (Py.is_str "error") [PStr "bank"; PStr "sales"] = false /\
  fst (run (fun _ => Body (PList [PStr "bank"; PStr "sales"]))
         (GetMetadata "bank" true true "" ""))
  = Ok "Successfully retrieved metadata for 0 tables from database(s): bank.".
Proof.
  split; [intros rq _; reflexivity | split; [discriminate | split; [reflexivity |]]].
  apply (proj2 (array_body (fun _ => Body (PList [PStr "bank"; PStr "sales"]))
                  (GetMetadata "bank" true true "" "")
                  [PStr "bank"; PStr "sales"]
                  ltac:(intros rq _; reflexivity) ltac:(discriminate)) eq_refl).
Defined.

(** ** All entries or no text *)

(** X11: when [results] is a list, [similarity_search] returns a text
    exactly when every element is an object whose score (default 0) is a
    number that formats; one element that is not makes the whole call
    raise, whatever the other elements are. *)
Theorem similarity_search_all_or_nothing (net : backend) (query : string)
    (n_results : Z) (username password : string) (d : dict)
    (items : list pyval) :
  replies net (SimilaritySearch query n_results username password)
    (Body (PDict d)) ->
  Py.lookup "error" d = None ->
  Py.lookup "results" d = Some (PList items) ->
  ((exists text,
       fst (similarity_search net query n_results username password) = Ok text)
   <-> Forall good_hit items).
Proof.
  intros Hr He Hres. reply_of Hr.
  apply similarity_search_render_all_or_nothing; assumption.
Qed.

Lemma similarity_search_all_or_nothing_witness :
  replies (fun _ => Body (PDict [("results", PList [PDict []; PStr "bank.loans"])]))
    (SimilaritySearch "customer churn" 5 "" "")
    (Body (PDict [("results", PList [PDict []; PStr "bank.loans"])])) /\
  ((exists text,
       fst (similarity_search
              (fun _ => Body (PDict [("results", PList [PDict []; PStr "bank.loans"])]))
              "customer churn" 5 "" "") = Ok text)
   <-> Forall good_hit [PDict []; PStr "bank.loans"]).
Proof.
  split; [intros rq _; reflexivity |].
  apply (similarity_search_all_or_nothing
           (fun _ => Body (PDict [("results", PList [PDict []; PStr "bank.loans"])]))
           "customer churn" 5 "" ""
           [("results", PList [PDict []; PStr "bank.loans"])]
           [PDict []; PStr "bank.loans"]).
  - intros rq _. reflexivity.
  - reflexivity.
  - reflexivity.
Defined.

(** X12: when [db_schema_json] is a list, [get_metadata] returns a text
    exactly when every element is an object whose name (default "Unknown")
    is a string and whose tables (default empty) have a length; one element
    that is not makes the whole call raise. *)
Theorem get_metadata_all_or_nothing (net : backend) (database_names : string)
    (insert overwrite : bool) (username password : string) (d : dict)
    (items : list pyval) :
  replies net (GetMetadata database_names insert overwrite username password)
    (Body (PDict d)) ->
  Py.lookup "error" d = None ->
  Py.lookup "db_schema_json" d = Some (PList items) ->
  ((exists text,
       fst (get_metadata net database_names insert overwrite username password)
       = Ok text)
   <-> Forall good_entry items).
Proof.
  intros Hr He Hs. reply_of Hr.
  apply get_metadata_render_all_or_nothing; assumption.
Qed.

Lemma get_metadata_all_or_nothing_witness :
  replies (fun _ => Body (PDict scenario_4)) (GetMetadata "bank" true true "" "")
    (Body (PDict scenario_4)) /\
  ((exists text,
       fst (get_metadata (fun _ => Body (PDict scenario_4)) "bank" true true "" "")
       = Ok text)
   <-> Forall good_entry
         [PDict [("databaseName", PStr "bank");
                 ("databaseTables", PList [PDict []; PDict []; PDict []])]]).
Proof.
  split; [intros rq _; reflexivity |].
  apply (get_metadata_all_or_nothing (fun _ => Body (PDict scenario_4))
           "bank" true true "" "" scenario_4
           [PDict [("databaseName", PStr "bank");
                   ("databaseTables", PList [PDict []; PDict []; PDict []])]]).
  - intros rq _. reflexivity.
  - reflexivity.
  - reflexivity.
Defined.

(** ** The table line of the answer tools *)

Lemma join_chars (sep s : string) :
  Py.join sep (PStr s) = Ok (String.concat sep (Py.chars s)).
Proof.
  unfold Py.join. cbn [Py.iter bind]. rewrite strings_of_map. reflexivity.
Qed.

Lemma join_keys (sep : string) (o : dict) :
  Py.join sep (PDict o) = Ok (String.concat sep (map fst o)).
Proof.
  unfold Py.join. cbn [Py.iter bind].
  rewrite <- (map_map fst PStr), strings_of_map. reflexivity.
Qed.

(** X13: in [answer_question] and [answer_data_question] the line
    "Tables Used" shows "None" for every [tables_used] that is not truthy
    (missing, null, empty list, empty string, 0, false); a non-empty string
    is joined character by character and a non-empty object key by key; a
    number other than zero, or [true], makes the tool raise TypeError. *)
Theorem tables_used_line (d : dict) :
  d <> [] -> Py.lookup "error" d = None ->
  let t := field d "tables_used" (PList []) in
  let lines := three_lines (Py.str (field d "answer" (PStr "No answer provided")))
                 (sql_line d) in
  (Py.truthy t = false ->
   answer_question_render (PDict d) = Ok (lines "None") /\
   answer_data_question_render (PDict d) = Ok (lines "None")) /\
  (forall s, t = PStr s -> s <> "" ->
   answer_question_render (PDict d)
   = Ok (lines (String.concat ", " (Py.chars s))) /\
   answer_data_question_render (PDict d)
   = Ok (lines (String.concat ", " (Py.chars s)))) /\
  (forall o, t = PDict o -> o <> [] ->
   answer_question_render (PDict d)
   = Ok (lines (String.concat ", " (map fst o))) /\
   answer_data_question_render (PDict d)
   = Ok (lines (String.concat ", " (map fst o)))) /\
  (scalar t ->
   answer_question_render (PDict d) = Raise TypeError /\
   answer_data_question_render (PDict d) = Raise TypeError).
Proof.
  intros Hd He t lines.
  assert (Hrender : answer_question_render (PDict d)
                    = (tables_text <- (if Py.truthy t then Py.join ", " t
                                       else Ok "None") ;;
                       Ok (lines tables_text))).
  { unfold answer_question_render. rewrite (guard_pass d Hd He). cbn [bind].
    rewrite !get_field. cbn [bind]. rewrite sql_text. reflexivity. }
  change (answer_data_question_render (PDict d))
    with (answer_question_render (PDict d)).
  rewrite Hrender. repeat split.
  - rewrite H. reflexivity.
  - rewrite H. reflexivity.
  - rewrite H. destruct s; [congruence |]. cbn [Py.truthy Py.nonempty].
    rewrite join_chars. reflexivity.
  - rewrite H. destruct s; [congruence |]. cbn [Py.truthy Py.nonempty].
    rewrite join_chars. reflexivity.
  - rewrite H. destruct o; [congruence |]. cbn [Py.truthy].
    rewrite join_keys. reflexivity.
  - rewrite H. destruct o; [congruence |]. cbn [Py.truthy].
    rewrite join_keys. reflexivity.
  - destruct t; cbn [scalar] in H; try contradiction; rewrite H; reflexivity.
  - destruct t; cbn [scalar] in H; try contradiction; rewrite H; reflexivity.
Qed.

Lemma tables_used_line_witness :
  [("answer", PStr "42"); ("tables_used", PStr "ab")] <> [] /\
  Py.lookup "error" [("answer", PStr "42"); ("tables_used", PStr "ab")] = None /\
  answer_question_render (PDict [("answer", PStr "42"); ("tables_used", PStr "ab")])
  = Ok (nl ++ "Answer: 42" ++ nl ++
        nl ++ "SQL Query: No SQL query generated" ++ nl ++
        nl ++ "Tables Used: a, b" ++ nl).
Proof.
  split; [discriminate | split; [reflexivity |]].
  apply (proj1 (proj1 (proj2 (tables_used_line
                               [("answer", PStr "42"); ("tables_used", PStr "ab")]
                               ltac:(discriminate) eq_refl))
                  "ab" eq_refl ltac:(discriminate))).
Defined.

(** X14: when the body is a non-empty string, a tool raises AttributeError
    if the string contains "error"; otherwise the three answer tools raise
    AttributeError, [similarity_search] returns the no-results sentence
    unless the string contains "results", and [get_metadata] reports
    success with 0 tables and the requested names unless the string
    contains "db_schema_json" (in both excepted cases the tool raises
    TypeError). *)
Theorem text_body (net : backend) (c : call) (s : string) :
  replies net c (Body (PStr s)) -> s <> "" ->
  (Py.substring_in "error" s = true ->
   fst (run net c) = Raise AttributeError) /\
  (Py.substring_in "error" s = false ->
   match c with
   | SimilaritySearch _ _ _ _ =>
       fst (run net c) =
       if Py.substring_in "results" s then Raise TypeError
       else Ok "No results found or unable to perform similarity search."
   | GetMetadata database_names _ _ _ _ =>
       fst (run net c) =
       if Py.substring_in "db_schema_json" s then Raise TypeError
       else Ok ("Successfully retrieved metadata for 0 tables from database(s): "
                ++ database_names ++ ".")
   | _ => fst (run net c) = Raise AttributeError
   end).
Proof.
  intros Hr Hne. rewrite (run_replies net c _ Hr). cbn [absorb].
  assert (Ht : Py.truthy (PStr s) = true)
    by (destruct s; [congruence | reflexivity]).
  split; intros He;
    destruct c; cbn [render];
    unfold answer_question_render, answer_data_question_render,
      answer_metadata_question_render, similarity_search_render,
      get_metadata_render, failed_or_error, error_text;
    rewrite Ht; cbn [negb Py.contains bind]; rewrite He; cbn [bind Py.get];
    try reflexivity.
  - destruct (Py.substring_in "results" s); reflexivity.
  - destruct (Py.substring_in "db_schema_json" s); reflexivity.
Qed.

Lemma text_body_witness :
  replies (fun _ => Body (PStr "OK")) (SimilaritySearch "customer churn" 5 "" "")
    (Body (PStr "OK")) /\
  "OK" <> "" /\
  Py.substring_in "error" "OK" = false /\
  fst (run (fun _ => Body (PStr "OK")) (SimilaritySearch "customer churn" 5 "" ""))
  = Ok "No results found or unable to perform similarity search.".
Proof.
  split; [intros rq _; reflexivity | split; [discriminate | split; [reflexivity |]]].
  apply (proj2 (text_body (fun _ => Body (PStr "OK"))
                  (SimilaritySearch "customer churn" 5 "" "") "OK"
                  ltac:(intros rq _; reflexivity) ltac:(discriminate)) eq_refl).
Defined.

(** ** Collections that are null or numbers *)

(** X15: when [results] (for [similarity_search]) or [db_schema_json] (for
    [get_metadata]) is present but is null, a boolean or a number, the tool
    raises TypeError: the field is iterated without a check, and only a
    missing field gets the fallback. *)
Theorem collection_not_iterable (net : backend) (d : dict) (v : pyval) :
  Py.lookup "error" d = None ->
  match v with
  | PNone | PBool _ | PInt _ | PFloat _ => True
  | _ => False
  end ->
  (forall query n_results username password,
      Py.lookup "results" d = Some v ->
      replies net (SimilaritySearch query n_results username password)
        (Body (PDict d)) ->
      fst (similarity_search net query n_results username password)
      = Raise TypeError) /\
  (forall database_names insert overwrite username password,
      Py.lookup "db_schema_json" d = Some v ->
      replies net (GetMetadata database_names insert overwrite username password)
        (Body (PDict d)) ->
      fst (get_metadata net database_names insert overwrite username password)
      = Raise TypeError).
Proof.
  intros He Hv. split.
  - intros query n_results username password Hres Hr. reply_of Hr.
    unfold similarity_search_render.
    rewrite (guard_pass d); [| intros ->; discriminate | assumption].
    cbn [bind]. rewrite (lookup_some_nonempty _ _ _ Hres).
    cbn [negb Py.contains Py.getitem bind]. rewrite Hres. cbn [negb bind].
    destruct v; try contradiction; reflexivity.
  - intros database_names insert overwrite username password Hs Hr. reply_of Hr.
    unfold get_metadata_render.
    rewrite (guard_pass d); [| intros ->; discriminate | assumption].
    cbn [bind Py.contains Py.getitem]. rewrite Hs. cbn [bind].
    destruct v; try contradiction; reflexivity.
Qed.

Lemma collection_not_iterable_witness :
  Py.lookup "error" [("results", PNone)] = None /\
  Py.lookup "results" [("results", PNone)] = Some PNone /\
  replies (fun _ => Body (PDict [("results", PNone)]))
    (SimilaritySearch "customer churn" 5 "" "")
    (Body (PDict [("results", PNone)])) /\
  fst (similarity_search (fun _ => Body (PDict [("results", PNone)]))
         "customer churn" 5 "" "")
  = Raise TypeError.
Proof.
  split; [reflexivity | split; [reflexivity | split; [intros rq _; reflexivity |]]].
  apply (proj1 (collection_not_iterable
                  (fun _ => Body (PDict [("results", PNone)]))
                  [("results", PNone)] PNone eq_refl I)
           "customer churn" 5 "" "" eq_refl).
  intros rq _. reflexivity.
Defined.
